(** * SmartTask AI: the command interpreter of [app.py]

    A shallow embedding of [ai_process] (app.py, lines 251-343), of the
    helpers it calls ([format_date_iso], [today_start]) and of the part of
    [api_query] that persists the task list, followed by the properties of
    the interpreter; then of the routes that manage the store and the
    profile ([api_tasks], [api_task_modify], [api_subscribe],
    [api_profile], [api_query]) and of their properties.

    Modelling conventions.
    - A Python [str] is a [string]; the case mappings and the whitespace
      class are those of the ASCII range, other characters pass through
      [lower], [upper] and [strip] unchanged.
    - A task is the dictionary built by [POST /api/tasks]: all six keys
      present, the five textual ones holding strings and ["done"] a
      boolean, so [t.get(k, default)] and [t[k]] both read the field.
    - [datetime.fromisoformat] belongs to the Python library, not to the
      program: the interpreter is parameterised by it (a [string ->
      option datetime], [None] standing for the exception it raises) and
      by the reading of the clock, the two fields of [DatetimeLib].  A parser for the timestamps that
      [datetime.isoformat] writes is given for the concrete runs.
    - The list of tasks is mutated in place by the program: the embedding
      returns the list as it stands when the call ends, next to the
      outcome of the call (a reply, or the exception that escaped). *)

From Stdlib Require Import ZArith List String Ascii Bool Lia.
Import ListNotations.

Open Scope string_scope.
Open Scope bool_scope.

(* ================================================================== *)
(** * Python string operations *)
(* ================================================================== *)

Module PyStr.

Definition code (c : ascii) : nat := nat_of_ascii c.

Definition is_upper (c : ascii) : bool := (65 <=? code c)%nat && (code c <=? 90)%nat.
Definition is_lower (c : ascii) : bool := (97 <=? code c)%nat && (code c <=? 122)%nat.

Definition to_lower (c : ascii) : ascii :=
  if is_upper c then ascii_of_nat (code c + 32) else c.

Definition to_upper (c : ascii) : ascii :=
  if is_lower c then ascii_of_nat (code c - 32) else c.

(** [str.isspace] on the ASCII range: TAB, LF, VT, FF, CR, the four
    separators FS, GS, RS, US, and the space. *)
Definition is_space (c : ascii) : bool :=
  ((9 <=? code c)%nat && (code c <=? 13)%nat)
  || ((28 <=? code c)%nat && (code c <=? 32)%nat).

Fixpoint smap (f : ascii -> ascii) (s : string) : string :=
  match s with
  | EmptyString => EmptyString
  | String c s' => String (f c) (smap f s')
  end.

(** [s.lower()] and [s.upper()] *)
Definition lower (s : string) : string := smap to_lower s.
Definition upper (s : string) : string := smap to_upper s.

(** [s.lstrip()], [s.rstrip()], [s.strip()] *)
Fixpoint lstrip (s : string) : string :=
  match s with
  | EmptyString => EmptyString
  | String c s' => if is_space c then lstrip s' else s
  end.

Fixpoint rstrip (s : string) : string :=
  match s with
  | EmptyString => EmptyString
  | String c s' =>
      match rstrip s' with
      | EmptyString => if is_space c then EmptyString else String c EmptyString
      | r => String c r
      end
  end.

Definition strip (s : string) : string := rstrip (lstrip s).

(** [s.startswith(p)] *)
Fixpoint startswith (s p : string) {struct p} : bool :=
  match p with
  | EmptyString => true
  | String a p' =>
      match s with
      | EmptyString => false
      | String b s' => Ascii.eqb a b && startswith s' p'
      end
  end.

(** [sub in s] *)
Fixpoint str_in (sub s : string) : bool :=
  startswith s sub
  || match s with
     | EmptyString => false
     | String _ s' => str_in sub s'
     end.

(** [any(w in s for w in ws)] *)
Definition any_in (ws : list string) (s : string) : bool :=
  existsb (fun w => str_in w s) ws.

(** [s.replace(old, new)]: the occurrences of [old] are found from the
    left and do not overlap.  [skip] counts the characters of an
    occurrence still to be dropped. *)
Fixpoint replace_from (skip : nat) (s old new : string) : string :=
  match s with
  | EmptyString =>
      match old with EmptyString => new | _ => EmptyString end
  | String c s' =>
      match skip with
      | S k => replace_from k s' old new
      | O =>
          if startswith s old
          then new ++ match old with
                      | EmptyString => String c (replace_from 0 s' old new)
                      | _ => replace_from (String.length old - 1) s' old new
                      end
          else String c (replace_from 0 s' old new)
      end
  end.

Definition replace (s old new : string) : string := replace_from 0 s old new.

(** [sep.join(l)] *)
Fixpoint join (sep : string) (l : list string) : string :=
  match l with
  | [] => EmptyString
  | [x] => x
  | x :: l' => x ++ sep ++ join sep l'
  end.

(** [s[n:]] *)
Fixpoint drop (n : nat) (s : string) : string :=
  match n, s with
  | O, _ => s
  | S _, EmptyString => EmptyString
  | S k, String _ s' => drop k s'
  end.

(** Decimal digits of a number, as [str(n)] and the [f"{n}"] fields
    write them. *)
Definition digit (n : nat) : ascii := ascii_of_nat (48 + n mod 10).

Fixpoint digits (fuel n : nat) (acc : string) : string :=
  match fuel with
  | O => acc
  | S f =>
      let acc' := String (digit n) acc in
      if (n <? 10)%nat then acc' else digits f (n / 10) acc'
  end.

Definition str_of_nat (n : nat) : string := digits (S n) n EmptyString.

(** [n] written on at least [w] digits, zero padded: the [%02d] and
    [%04d] of [strftime]. *)
Fixpoint zfill (w : nat) (s : string) : string :=
  match w with
  | O => s
  | S k => if (String.length s <=? k)%nat then zfill k (String "0" s) else s
  end.

End PyStr.

Import PyStr.

(* ================================================================== *)
(** * The [datetime] values the interpreter handles *)
(* ================================================================== *)

Module PyDatetime.

Open Scope Z_scope.

(** A [datetime]: the microseconds of its wall-clock fields counted from
    the midnight that opens ordinal day 0 (so that the date of the value
    is the ordinal [dt_wall / DAY_US], as [toordinal()] gives it), and its
    offset from UTC in microseconds ([None] for a naive value). *)
Record datetime : Type := mkdatetime {
  dt_wall   : Z;
  dt_offset : option Z
}.

Definition MAXORDINAL : Z := 3652059.
Definition DAY_US : Z := 86400000000.

(** [d.date()], as an ordinal *)
Definition dt_date (d : datetime) : Z := dt_wall d / DAY_US.

Definition of_fields (ordinal micro : Z) (off : option Z) : datetime :=
  mkdatetime (ordinal * DAY_US + micro) off.

(** The comparison of two [datetime]s: two naive values compare their
    fields, two aware values their instants, and a naive and an aware
    value do not compare: [None] is the [TypeError] the ordering
    operators raise. *)
Definition dt_cmp (a b : datetime) : option comparison :=
  match dt_offset a, dt_offset b with
  | None, None => Some (dt_wall a ?= dt_wall b)
  | Some oa, Some ob => Some (dt_wall a - oa ?= dt_wall b - ob)
  | _, _ => None
  end.

(** [a < b] and [a <= b] *)
Definition dt_lt (a b : datetime) : option bool :=
  match dt_cmp a b with
  | Some Lt => Some true
  | Some _ => Some false
  | None => None
  end.

Definition dt_le (a b : datetime) : option bool :=
  match dt_cmp a b with
  | Some Gt => Some false
  | Some _ => Some true
  | None => None
  end.

(** [d + timedelta(days=n)]; [None] is the [OverflowError] of a date
    outside the years 1 to 9999. *)
Definition add_days (d : datetime) (n : Z) : option datetime :=
  let o := dt_date d + n in
  if (0 <? o) && (o <=? MAXORDINAL)
  then Some (mkdatetime (dt_wall d + n * DAY_US) (dt_offset d))
  else None.

(** [d.replace(hour=0, minute=0, second=0, microsecond=0)] *)
Definition at_midnight (d : datetime) : datetime :=
  mkdatetime (dt_date d * DAY_US) (dt_offset d).

(** ** The calendar, after [_ymd2ord] and [_ord2ymd] of [datetime.py] *)

Definition is_leap (y : Z) : bool :=
  (y mod 4 =? 0) && (negb (y mod 100 =? 0) || (y mod 400 =? 0)).

Definition days_in_month (y m : Z) : Z :=
  if m =? 2 then (if is_leap y then 29 else 28)
  else if (m =? 4) || (m =? 6) || (m =? 9) || (m =? 11) then 30
  else 31.

Definition days_before_month_tab (m : Z) : Z :=
  nth (Z.to_nat m) [0; 0; 31; 59; 90; 120; 151; 181; 212; 243; 273; 304; 334] 0.

Definition days_before_month (y m : Z) : Z :=
  days_before_month_tab m + (if (2 <? m) && is_leap y then 1 else 0).

Definition days_before_year (y : Z) : Z :=
  let p := y - 1 in p * 365 + p / 4 - p / 100 + p / 400.

Definition ymd2ord (y m d : Z) : Z :=
  days_before_year y + days_before_month y m + d.

Definition ord2ymd (ordinal : Z) : Z * Z * Z :=
  let n := ordinal - 1 in
  let n400 := n / 146097 in let n := n mod 146097 in
  let n100 := n / 36524 in let n := n mod 36524 in
  let n4 := n / 1461 in let n := n mod 1461 in
  let n1 := n / 365 in let n := n mod 365 in
  let year := n400 * 400 + 1 + n100 * 100 + n4 * 4 + n1 in
  if (n1 =? 4) || (n100 =? 4) then (year - 1, 12, 31)
  else
    let leapyear := (n1 =? 3) && (negb (n4 =? 24) || (n100 =? 3)) in
    let month := Z.shiftr (n + 50) 5 in
    let preceding :=
      days_before_month_tab month + (if (2 <? month) && leapyear then 1 else 0) in
    if n <? preceding
    then
      let month' := month - 1 in
      let dim := if (month' =? 2) && leapyear then 29
                 else days_in_month 1 month' in
      (year, month', n - (preceding - dim) + 1)
    else (year, month, n - preceding + 1).

Definition month_name (m : Z) : string :=
  nth (Z.to_nat m)
    [""; "January"; "February"; "March"; "April"; "May"; "June"; "July";
     "August"; "September"; "October"; "November"; "December"]%string
    ""%string.

(** [d.strftime("%d %B %Y")]: month names of the C locale, the year on
    four digits. *)
Definition strftime_d_B_Y (d : datetime) : string :=
  match ord2ymd (dt_date d) with
  | (y, m, dd) =>
      (zfill 2 (str_of_nat (Z.to_nat dd)) ++ " " ++ month_name m ++ " "
       ++ zfill 4 (str_of_nat (Z.to_nat y)))%string
  end.

(** ** A parser for the timestamps [isoformat()] writes

    [YYYY-MM-DD], optionally followed by one separator character and
    [HH:MM:SS], optionally followed by [Z] or [+HH:MM] / [-HH:MM].  It
    stands for [datetime.fromisoformat] in the concrete runs below;
    everything it accepts, [fromisoformat] reads the same way. *)

Definition digit_val (c : ascii) : option Z :=
  let n := nat_of_ascii c in
  if (48 <=? n)%nat && (n <=? 57)%nat then Some (Z.of_nat (n - 48)) else None.

Fixpoint read_digits (k : nat) (acc : Z) (s : string) : option (Z * string) :=
  match k with
  | O => Some (acc, s)
  | S k' =>
      match s with
      | String c s' =>
          match digit_val c with
          | Some v => read_digits k' (acc * 10 + v) s'
          | None => None
          end
      | EmptyString => None
      end
  end.

Definition expect (c : ascii) (s : string) : option string :=
  match s with
  | String c' s' => if Ascii.eqb c c' then Some s' else None
  | EmptyString => None
  end.

Definition bind {A B : Type} (o : option A) (f : A -> option B) : option B :=
  match o with Some a => f a | None => None end.

Notation "'do' x <- o ; k" := (bind o (fun x => k))
  (at level 10, x pattern, o at level 100, k at level 200).

Definition guard (b : bool) : option unit := if b then Some tt else None.

Definition parse_date (s : string) : option (Z * string) :=
  do (y, s) <- read_digits 4 0 s;
  do s <- expect "-" s;
  do (m, s) <- read_digits 2 0 s;
  do s <- expect "-" s;
  do (d, s) <- read_digits 2 0 s;
  do _ <- guard ((1 <=? y) && (1 <=? m) && (m <=? 12)
                 && (1 <=? d) && (d <=? days_in_month y m));
  Some (ymd2ord y m d, s).

Definition parse_hms (s : string) : option (Z * string) :=
  do (h, s) <- read_digits 2 0 s;
  do s <- expect ":" s;
  do (mi, s) <- read_digits 2 0 s;
  do s <- expect ":" s;
  do (sec, s) <- read_digits 2 0 s;
  do _ <- guard ((h <? 24) && (mi <? 60) && (sec <? 60));
  Some (((h * 60 + mi) * 60 + sec) * 1000000, s).

Definition parse_offset (s : string) : option (option Z) :=
  match s with
  | EmptyString => Some None
  | String "Z" EmptyString => Some (Some 0)
  | String sign s' =>
      do sg <- (if Ascii.eqb sign "+" then Some 1
                else if Ascii.eqb sign "-" then Some (-1) else None);
      do (h, s) <- read_digits 2 0 s';
      do s <- expect ":" s;
      do (mi, s) <- read_digits 2 0 s;
      do _ <- guard ((h <? 24) && (mi <? 60));
      match s with
      | EmptyString => Some (Some (sg * (h * 60 + mi) * 60000000))
      | _ => None
      end
  end.

Definition fromisoformat_canonical (s : string) : option datetime :=
  do (o, s) <- parse_date s;
  match s with
  | EmptyString => Some (of_fields o 0 None)
  | String _ s' =>
      do (us, s) <- parse_hms s';
      do off <- parse_offset s;
      Some (of_fields o us off)
  end.

End PyDatetime.

Import PyDatetime.

(* ================================================================== *)
(** * Tasks, profile, replies *)
(* ================================================================== *)

(** The dictionary [t] that [POST /api/tasks] appends to the list. *)
Record task : Type := mktask {
  id       : string;
  name     : string;
  deadline : string;
  priority : string;
  note     : string;
  done     : bool
}.

(** The profile dictionary; the key ["plan"] may be missing. *)
Record profile : Type := mkprofile {
  p_name    : string;
  p_email   : string;
  p_avatar  : string;
  plan      : option string;
  p_created : string
}.

(** What [ai_process] returns: a plain string, or the dictionary
    [{"reply": s, "_save": True}]. *)
Inductive reply : Type :=
| Text (s : string)
| Save (s : string).

(** The exceptions the statements of [ai_process] can raise. *)
Inductive exn : Type :=
| TypeError      (* can't compare offset-naive and offset-aware datetimes *)
| OverflowError  (* date value out of range *)
| ValueError     (* list.remove(x): x not in list *)
| IndexError.    (* list index out of range *)

(** How a call ends: with a value, or with an exception that leaves it. *)
Inductive outcome : Type :=
| Returns (r : reply)
| Raises (e : exn).

Definition reply_text (r : reply) : string :=
  match r with Text s => s | Save s => s end.

(** [isinstance(reply, dict) and reply.get("_save")] *)
Definition wants_save (o : outcome) : bool :=
  match o with Returns (Save _) => true | _ => false end.

(** Equality of two task dictionaries, [==] on [dict]. *)
Definition task_eqb (a b : task) : bool :=
  String.eqb (id a) (id b) && String.eqb (name a) (name b)
  && String.eqb (deadline a) (deadline b)
  && String.eqb (priority a) (priority b)
  && String.eqb (note a) (note b) && Bool.eqb (done a) (done b).

(** [l.remove(x)]: the first element equal to [x] goes; [None] is the
    [ValueError] raised when there is none. *)
Fixpoint list_remove (x : task) (l : list task) : option (list task) :=
  match l with
  | [] => None
  | y :: l' =>
      if task_eqb y x then Some l'
      else option_map (cons y) (list_remove x l')
  end.

(** [f["done"] = True] *)
Definition set_done (t : task) : task :=
  mktask (id t) (name t) (deadline t) (priority t) (note t) true.

(** The effect on the list of [f["done"] = True] where [f] is
    [next((t for t in tasks if p(t)), None)]: the dictionaries decoded
    from the file are distinct objects, so the assignment changes one
    position of the list, that of the first [t] with [p t]. *)
Fixpoint mark_first (p : task -> bool) (l : list task) : list task :=
  match l with
  | [] => []
  | t :: l' => if p t then set_done t :: l' else t :: mark_first p l'
  end.

Definition nl : string := String (ascii_of_nat 10) EmptyString.

(** [profile.get("plan","basic") == "pro"] *)
Definition plan_is_pro (p : profile) : bool :=
  String.eqb (match plan p with Some s => s | None => "basic" end) "pro".

(* ================================================================== *)
(** * The interpreter *)
(* ================================================================== *)

(** What the interpreter takes from the [datetime] class of the Python
    library: [fromisoformat] ([None] when it raises) and the value [now()]
    returns during the call. *)
Class DatetimeLib : Type := {
  fromisoformat : string -> option datetime;
  now : datetime
}.

Section Interpreter.

Context {lib : DatetimeLib}.

Definition format_date_iso (iso : string) : string :=
  if String.eqb iso "" then ""
  else match fromisoformat iso with
       | Some d => strftime_d_B_Y d
       | None => iso
       end.

Definition today_start : datetime := at_midnight now.

(** [name in t.get("name","").lower()] *)
Definition name_has (nm : string) (t : task) : bool :=
  str_in nm (lower (name t)).

(** ** [hapus] (lines 263-271) *)
Definition do_hapus (text : string) (tasks : list task) : outcome * list task :=
  let nm := strip (replace text "hapus" "") in
  let found := filter (name_has nm) tasks in
  if (List.length found =? 1)%nat then
    match found with
    | f0 :: _ =>
        match list_remove f0 tasks with
        | Some tasks' =>
            (Returns (Save ("Tugas '" ++ name f0 ++ "' dihapus.")), tasks')
        | None => (Raises ValueError, tasks)
        end
    | [] => (Raises IndexError, tasks)
    end
  else if (1 <? List.length found)%nat then
    (Returns (Text ("Ditemukan " ++ str_of_nat (List.length found)
                    ++ " tugas. Sebutkan nama lebih spesifik.")), tasks)
  else
    (Returns (Text ("Tugas '" ++ nm ++ "' tidak ditemukan.")), tasks).

(** ** [selesai] (lines 273-279)

    [if f:] holds of every task [next] finds: a dictionary with keys is
    true. *)
Definition do_selesai (text : string) (tasks : list task) : outcome * list task :=
  let nm := strip (replace text "selesai" "") in
  match find (name_has nm) tasks with
  | Some f =>
      (Returns (Save ("Tugas '" ++ name f ++ "' ditandai selesai.")),
       mark_first (name_has nm) tasks)
  | None => (Returns (Text ("Tugas '" ++ nm ++ "' tidak ditemukan.")), tasks)
  end.

(** ** [terdekat] (lines 282-294) *)
Definition parse_dt (t : task) : option datetime := fromisoformat (deadline t).

Definition has_dt (t : task) : bool :=
  match parse_dt t with Some _ => true | None => false end.

(** [parse_dt(y) < parse_dt(x)], the comparison [sort] makes on two
    keys; [None] when it raises. *)
Definition key_lt (y x : task) : option bool :=
  match parse_dt y, parse_dt x with
  | Some a, Some b => dt_lt a b
  | _, _ => None
  end.

(** [l.sort(key=parse_dt)].  [list.sort] is a stable comparison sort
    that orders the keys with [<] alone and lets an exception of [<]
    through; it is rendered as the stable insertion sort. *)
Fixpoint insert_by_key (x : task) (l : list task) : option (list task) :=
  match l with
  | [] => Some [x]
  | y :: l' =>
      match key_lt y x with
      | None => None
      | Some true => option_map (cons y) (insert_by_key x l')
      | Some false => Some (x :: l)
      end
  end.

Fixpoint sort_by_key (l : list task) : option (list task) :=
  match l with
  | [] => Some []
  | x :: l' =>
      match sort_by_key l' with
      | None => None
      | Some s => insert_by_key x s
      end
  end.

Definition do_terdekat (tasks : list task) : outcome :=
  let upcoming := filter (fun t => negb (done t)) tasks in
  let upcoming := filter has_dt upcoming in
  match upcoming with
  | [] => Returns (Text "Tidak ada tugas mendatang atau semua deadline tidak valid.")
  | _ =>
      match sort_by_key upcoming with
      | None => Raises TypeError
      | Some (t :: _) =>
          Returns (Text ("Deadline terdekat adalah '" ++ name t ++ "' pada "
                         ++ format_date_iso (deadline t) ++ "."))
      | Some [] => Raises IndexError
      end
  end.

(** ** [minggu] (lines 296-308) *)
Definition in_week (start stop : datetime) (t : task) : bool :=
  match fromisoformat (deadline t) with
  | Some d =>
      match dt_le start d with
      | Some true =>
          match dt_le d stop with
          | Some true => negb (done t)
          | _ => false
          end
      | _ => false
      end
  | None => false
  end.

Definition do_minggu (tasks : list task) : outcome :=
  match add_days today_start 7 with
  | None => Raises OverflowError
  | Some stop =>
      let lst := filter (in_week today_start stop) tasks in
      match lst with
      | [] => Returns (Text "Tidak ada tugas minggu ini.")
      | _ =>
          Returns (Text ("Tugas minggu ini:" ++ nl ++
            join nl (map (fun x => "- " ++ name x ++ " ("
                                   ++ format_date_iso (deadline x) ++ ")") lst)))
      end
  end.

(** ** [besok] (lines 310-322) *)
Definition is_on (tom : datetime) (t : task) : bool :=
  match fromisoformat (deadline t) with
  | Some d => (dt_date d =? dt_date tom)%Z && negb (done t)
  | None => false
  end.

Definition do_besok (tasks : list task) : outcome :=
  match add_days today_start 1 with
  | None => Raises OverflowError
  | Some tom =>
      let lst := filter (is_on tom) tasks in
      match lst with
      | [] => Returns (Text "Tidak ada tugas untuk besok.")
      | _ =>
          Returns (Text ("Tugas besok:" ++ nl ++
            join nl (map (fun x => "- " ++ name x) lst)))
      end
  end.

(** ** [berapa] / [jumlah] (lines 324-326) *)
Definition do_jumlah (tasks : list task) : outcome :=
  let cnt := List.length (filter (fun t => negb (done t)) tasks) in
  Returns (Text ("Kamu punya " ++ str_of_nat cnt ++ " tugas.")).

(** ** [tampilkan] / [semua] / [daftar] (lines 328-333) *)
Definition line_basic (t : task) : string :=
  "- " ++ name t ++ " (" ++ format_date_iso (deadline t) ++ ")".

Definition line_pro (t : task) : string :=
  "- " ++ name t ++ " (" ++ format_date_iso (deadline t) ++ ") • "
  ++ upper (priority t) ++ " • " ++ note t.

Definition do_daftar (tasks : list task) (p : profile) : outcome :=
  match tasks with
  | [] => Returns (Text "Belum ada tugas.")
  | _ =>
      if plan_is_pro p
      then Returns (Text ("Daftar tugas:" ++ nl ++ join nl (map line_pro tasks)))
      else Returns (Text ("Daftar tugas:" ++ nl ++ join nl (map line_basic tasks)))
  end.

(** ** direct match by name, and the fallback (lines 336-343) *)
Definition do_lookup (text : string) (tasks : list task) (p : profile) : outcome :=
  match find (fun t => str_in (lower (name t)) text) tasks with
  | Some t =>
      if plan_is_pro p
      then Returns (Text ("Deadline '" ++ name t ++ "': "
                          ++ format_date_iso (deadline t) ++ nl
                          ++ "Priority: " ++ priority t ++ nl
                          ++ "Note: " ++ note t))
      else Returns (Text ("Deadline '" ++ name t ++ "': "
                          ++ format_date_iso (deadline t)))
  | None =>
      Returns (Text "Saya tidak paham. Coba: 'deadline terdekat', 'tugas minggu ini', 'tugas besok', 'berapa tugas saya', atau 'hapus <nama tugas>'.")
  end.

Definition greetings : list string := ["halo"; "hai"; "hello"; "hi"].

(** ** [ai_process] (lines 251-343) *)
Definition ai_process (q : string) (tasks : list task) (p : profile)
  : outcome * list task :=
  let text := strip (lower q) in
  if any_in greetings text then
    (Returns (Text "Hai! Ada yang bisa saya bantu?"), tasks)
  else if str_in "siapa kamu" text || str_in "kamu siapa" text then
    (Returns (Text "Saya SmartTask AI — asisten tugas dan pengingat."), tasks)
  else if str_in "apa kabar" text then
    (Returns (Text "Baik, terima kasih! Kamu gimana?"), tasks)
  else if startswith text "hapus" then do_hapus text tasks
  else if startswith text "selesai" then do_selesai text tasks
  else if str_in "terdekat" text || str_in "deadline terdekat" text then
    (do_terdekat tasks, tasks)
  else if str_in "minggu" text then (do_minggu tasks, tasks)
  else if str_in "besok" text then (do_besok tasks, tasks)
  else if str_in "berapa" text || str_in "jumlah" text then
    (do_jumlah tasks, tasks)
  else if any_in ["tampilkan"; "semua"; "daftar"] text then
    (do_daftar tasks p, tasks)
  else (do_lookup text tasks p, tasks).

(** ** The part of [api_query] that saves (lines 230-246)

    The content of [tasks.json] once the request has been served:
    [save_tasks(tasks)] runs when the reply is a dictionary holding
    ["_save"], and in no other case. *)
Definition api_query_store (payload_q : string) (store : list task)
  (p : profile) : list task :=
  let q := strip payload_q in
  if String.eqb q "" then store
  else
    match ai_process q store p with
    | (Returns (Save _), tasks') => tasks'
    | _ => store
    end.

End Interpreter.

(* ================================================================== *)
(** * Vocabulary of the properties *)
(* ================================================================== *)

(** The text the rules look at: [q.lower().strip()]. *)
Definition normalize (q : string) : string := strip (lower q).

(** The rules of [ai_process], in the order of the source. *)
Inductive rule : Type :=
| Greeting | Identity | WellBeing | Hapus | Selesai | Terdekat
| Minggu | Besok | Jumlah | Daftar | Lookup.

(** The first rule whose condition holds of [text]; [Lookup] stands for
    the loop over the names and the fallback that ends it. *)
Definition classify (text : string) : rule :=
  if any_in greetings text then Greeting
  else if str_in "siapa kamu" text || str_in "kamu siapa" text then Identity
  else if str_in "apa kabar" text then WellBeing
  else if startswith text "hapus" then Hapus
  else if startswith text "selesai" then Selesai
  else if str_in "terdekat" text || str_in "deadline terdekat" text then Terdekat
  else if str_in "minggu" text then Minggu
  else if str_in "besok" text then Besok
  else if str_in "berapa" text || str_in "jumlah" text then Jumlah
  else if any_in ["tampilkan"; "semua"; "daftar"] text then Daftar
  else Lookup.

Definition rule_eqb (a b : rule) : bool :=
  match a, b with
  | Greeting, Greeting | Identity, Identity | WellBeing, WellBeing
  | Hapus, Hapus | Selesai, Selesai | Terdekat, Terdekat | Minggu, Minggu
  | Besok, Besok | Jumlah, Jumlah | Daftar, Daftar | Lookup, Lookup => true
  | _, _ => false
  end.

(** One of the three small-talk rules, which come before the commands,
    answers [text]. *)
Definition small_talk (text : string) : bool :=
  match classify text with
  | Greeting | Identity | WellBeing => true
  | _ => false
  end.

(** Following the specification's words ("strip the prefix, treat
    remainder as a case-insensitive substring filter"): the text after
    its leading command word, surrounding whitespace trimmed. *)
Definition remainder_after (prefix text : string) : string :=
  strip (drop (String.length prefix) text).

(** The number of tasks whose lower-cased name contains [nm]. *)
Definition matches (nm : string) (tasks : list task) : nat :=
  List.length (filter (name_has nm) tasks).

(** The two paths that change the list: a [hapus] whose filter selects
    exactly one task, a [selesai] whose filter selects at least one. *)
Definition mutating (text : string) (tasks : list task) : bool :=
  match classify text with
  | Hapus => (matches (strip (replace text "hapus" "")) tasks =? 1)%nat
  | Selesai => existsb (name_has (strip (replace text "selesai" ""))) tasks
  | _ => false
  end.

(** The call returned a reply, and the reply is not the empty string. *)
Definition replies (o : outcome) : Prop :=
  exists r, o = Returns r /\ reply_text r <> "".

(** The last character of [w] is not whitespace. *)
Fixpoint ends_solid (w : string) : bool :=
  match w with
  | EmptyString => false
  | String c EmptyString => negb (is_space c)
  | String _ w' => ends_solid w'
  end.

(** The first character of [w] is not whitespace. *)
Definition starts_solid (w : string) : bool :=
  match w with
  | EmptyString => false
  | String c _ => negb (is_space c)
  end.

(** Two [datetime]s that [<] can compare: both naive or both aware. *)
Definition same_kind (a b : datetime) : bool :=
  match dt_offset a, dt_offset b with
  | None, None | Some _, Some _ => true
  | _, _ => false
  end.

(** The position of a [datetime] in the order of its kind: the wall
    clock of a naive value, the instant of an aware one. *)
Definition rank (d : datetime) : Z :=
  match dt_offset d with
  | None => dt_wall d
  | Some o => (dt_wall d - o)%Z
  end.

Section Vocabulary.

Context {lib : DatetimeLib}.

(** The tasks [terdekat] sorts: not done, with a deadline that parses. *)
Definition upcoming (tasks : list task) : list task :=
  filter has_dt (filter (fun t => negb (done t)) tasks).

Definition key_rank (t : task) : Z :=
  match parse_dt t with Some d => rank d | None => 0%Z end.

(** The deadlines of [l] that parse are all naive or all aware. *)
Definition uniform_kind (l : list task) : bool :=
  forallb (fun a =>
    forallb (fun b =>
      match parse_dt a, parse_dt b with
      | Some da, Some db => same_kind da db
      | _, _ => true
      end) l) l.

(** The keys of [l] compare without error, in the order of [r]. *)
Definition ranked (r : task -> Z) (l : list task) : Prop :=
  forall a b, In a l -> In b l -> key_lt a b = Some (r a <? r b)%Z.

(** The clock leaves room for the seven days [minggu] adds. *)
Definition clock_in_range : bool :=
  ((0 <? dt_date now + 1) && (dt_date now + 7 <=? MAXORDINAL))%Z.

End Vocabulary.

(** ** Concrete data for the runs *)

(** The library with the parser of canonical timestamps, the clock
    reading 4 January 2025, 10:00. *)
Definition canonical_lib : DatetimeLib :=
  {| fromisoformat := fromisoformat_canonical;
     now := of_fields (ymd2ord 2025 1 4) 36000000000 None |}.

(** The interpreter with that library. *)
Definition run : string -> list task -> profile -> outcome * list task :=
  @ai_process canonical_lib.

Definition basic_profile : profile :=
  mkprofile "Siswa" "" "" (Some "basic") "2025-01-01T08:00:00".

Definition pro_profile : profile :=
  mkprofile "Siswa" "" "" (Some "pro") "2025-01-01T08:00:00".

Definition new_task (i nm dl : string) : task :=
  mktask i nm dl "medium" "" false.

(* ================================================================== *)
(** * The routes on the store, the profile and the query *)
(* ================================================================== *)

(** What the handlers take from the library besides [DatetimeLib]:
    [d.isoformat()], [datetime.strptime(s, "%Y-%m-%d")] ([None] when it
    raises) and [d.strftime("%Y%m%d%H%M%S%f")]. *)
Class RouteLib : Type := {
  isoformat : datetime -> string;
  strptime_ymd : string -> option datetime;
  strftime_id : datetime -> string
}.

(** The JSON documents the handlers answer with. *)
Inductive body : Type :=
| JOk                          (* {"ok": True} *)
| JTask (t : task)             (* {"ok": True, "task": t} *)
| JProfile (p : profile) (subscribed_at : option string)
                               (* {"ok": True, "profile": p} *)
| JReply (s : string)          (* {"ok": True, "reply": s} *)
| JFail (msg : string)         (* {"ok": False, "msg": msg} *)
| JFailReply (s : string).     (* {"ok": False, "reply": s} *)

(** A response: the status code and the document. *)
Definition response : Type := (nat * body)%type.

(** The body of [PATCH /api/tasks/<id>]; a key that is absent is
    [None].  The values have the types of the fields they replace, as
    the front end sends them. *)
Record task_patch : Type := mkpatch {
  pt_done     : option bool;
  pt_name     : option string;
  pt_deadline : option string;
  pt_priority : option string;
  pt_note     : option string
}.

(** The body of [POST /api/tasks], with string values. *)
Record task_form : Type := mkform {
  f_name     : option string;
  f_deadline : option string;
  f_priority : option string;
  f_note     : option string
}.

(** The body of [PATCH /api/profile], with string values. *)
Record profile_patch : Type := mkppatch {
  pp_name   : option string;
  pp_email  : option string;
  pp_avatar : option string;
  pp_plan   : option string
}.

(** [profile.json]: absent, unreadable as JSON, or holding a profile and,
    once [api_subscribe] has run, the key ["subscribed_at"]. *)
Inductive profile_file : Type :=
| NoFile
| Garbled
| Holds (p : profile) (subscribed_at : option string).

(** The methods of the route [/api/tasks/<task_id>]. *)
Inductive modify_method : Type := M_PATCH | M_DELETE.

Definition or_default (o : option string) (d : string) : string :=
  match o with Some s => s | None => d end.

(** [t["id"] == task_id] *)
Definition has_id (task_id : string) (t : task) : bool :=
  String.eqb (id t) task_id.

(** The effect on the list of assignments to the keys of [found], the
    first dictionary that satisfies [p]. *)
Fixpoint update_first (p : task -> bool) (f : task -> task) (l : list task)
  : list task :=
  match l with
  | [] => []
  | t :: l' => if p t then f t :: l' else t :: update_first p f l'
  end.

(** A handler reads the clock once: the calls of [datetime.now()] made
    while one request is served return the same value. *)
Section Routes.

Context {lib : DatetimeLib} {rlib : RouteLib}.

Definition now_iso : string := isoformat now.

(** The assignments of the [PATCH] branch (lines 167-179), in their
    order; a deadline that does not parse is passed over. *)
Definition apply_patch (data : task_patch) (t : task) : task :=
  let t := match pt_done data with
           | Some b => mktask (id t) (name t) (deadline t) (priority t) (note t) b
           | None => t
           end in
  let t := match pt_name data with
           | Some s => mktask (id t) s (deadline t) (priority t) (note t) (done t)
           | None => t
           end in
  let t := match pt_deadline data with
           | Some s =>
               match fromisoformat s with
               | Some d =>
                   mktask (id t) (name t) (isoformat d) (priority t) (note t) (done t)
               | None => t
               end
           | None => t
           end in
  let t := match pt_priority data with
           | Some s => mktask (id t) (name t) (deadline t) s (note t) (done t)
           | None => t
           end in
  match pt_note data with
  | Some s => mktask (id t) (name t) (deadline t) (priority t) s (done t)
  | None => t
  end.

(** [api_task_modify] (lines 159-185): the response and the content of
    [tasks.json] afterwards. *)
Definition api_task_modify (m : modify_method) (task_id : string)
  (data : task_patch) (store : list task) : response * list task :=
  match find (has_id task_id) store with
  | None => ((404%nat, JFail "task not found"), store)
  | Some found =>
      match m with
      | M_PATCH =>
          ((200%nat, JTask (apply_patch data found)),
           update_first (has_id task_id) (apply_patch data) store)
      | M_DELETE =>
          ((200%nat, JOk), filter (fun t => negb (has_id task_id t)) store)
      end
  end.

(** The deadline as [POST /api/tasks] stores it (lines 134-142). *)
Definition normalize_deadline (deadline : string) : option string :=
  match fromisoformat deadline with
  | Some d => Some (isoformat d)
  | None =>
      match strptime_ymd deadline with
      | Some d => Some (isoformat d)
      | None => None
      end
  end.

(** [api_tasks], method [POST] (lines 125-153). *)
Definition api_tasks_post (payload : task_form) (store : list task)
  : response * list task :=
  let name := strip (or_default (f_name payload) "") in
  let deadline := or_default (f_deadline payload) "" in
  let priority := or_default (f_priority payload) "medium" in
  let note := or_default (f_note payload) "" in
  if String.eqb name "" || String.eqb deadline "" then
    ((400%nat, JFail "name and deadline required"), store)
  else
    match normalize_deadline deadline with
    | None => ((400%nat, JFail "invalid date format"), store)
    | Some iso =>
        let t := mktask ("t" ++ strftime_id now) name iso priority note false in
        ((200%nat, JTask t), (store ++ [t])%list)
    end.

(** [api_tasks], method [DELETE] (lines 155-157). *)
Definition api_tasks_clear (store : list task) : response * list task :=
  ((200%nat, JOk), []).

(** [load_profile] (lines 36-45): the profile read and the file
    afterwards. *)
Definition default_profile : profile :=
  mkprofile "Siswa" "" "" (Some "basic") now_iso.

Definition load_profile (file : profile_file)
  : (profile * option string) * profile_file :=
  match file with
  | NoFile => ((default_profile, None), Holds default_profile None)
  | Garbled => ((default_profile, None), Garbled)
  | Holds p s => ((p, s), file)
  end.

(** [api_subscribe] (lines 107-117) *)
Definition api_subscribe (plan_field : option string) (file : profile_file)
  : response * profile_file :=
  let plan := or_default plan_field "basic" in
  if negb (String.eqb plan "basic" || String.eqb plan "pro") then
    ((400%nat, JFail "invalid plan"), file)
  else
    let '((p, _), _) := load_profile file in
    let p := mkprofile (p_name p) (p_email p) (p_avatar p) (Some plan) (p_created p) in
    ((200%nat, JProfile p (Some now_iso)), Holds p (Some now_iso)).

(** [api_profile], method [PATCH] (lines 94-105) *)
Definition api_profile_patch (data : profile_patch) (file : profile_file)
  : response * profile_file :=
  let '((p, s), _) := load_profile file in
  let p := mkprofile (or_default (pp_name data) (p_name p))
             (or_default (pp_email data) (p_email p))
             (or_default (pp_avatar data) (p_avatar p))
             (match pp_plan data with Some x => Some x | None => plan p end)
             (p_created p) in
  ((200%nat, JProfile p s), Holds p s).

(** [api_query] (lines 227-249): the response and [tasks.json]
    afterwards, for a body whose key ["q"] is a string or is absent. *)
Definition api_query (q_field : option string) (store : list task)
  (file : profile_file) : response * list task :=
  let q := strip (or_default q_field "") in
  if String.eqb q "" then ((400%nat, JFailReply "Pertanyaan kosong"), store)
  else
    let '((p, _), _) := load_profile file in
    match ai_process q store p with
    | (Returns (Save s), tasks') => ((200%nat, JReply s), tasks')
    | (Returns (Text s), _) => ((200%nat, JReply s), store)
    | (Raises _, _) => ((500%nat, JFailReply "Terjadi kesalahan server"), store)
    end.

End Routes.

(* ================================================================== *)
(** * Vocabulary of the further properties *)
(* ================================================================== *)

Section Vocabulary2.

Context {lib : DatetimeLib}.

(** The deadline of [t] parses to an aware [datetime]. *)
Definition aware (t : task) : bool :=
  match parse_dt t with
  | Some d => match dt_offset d with Some _ => true | None => false end
  | None => false
  end.

(** [t] is pending and its deadline is a naive [datetime] between the
    midnight that opens today and the midnight seven days later, both
    included. *)
Definition due_this_week (t : task) : bool :=
  match fromisoformat (deadline t) with
  | Some d =>
      match dt_offset d with
      | None =>
          (dt_date now * DAY_US <=? dt_wall d)%Z
          && (dt_wall d <=? (dt_date now + 7) * DAY_US)%Z
          && negb (done t)
      | Some _ => false
      end
  | None => false
  end.

(** [t] is pending and the date of its deadline is tomorrow's. *)
Definition due_tomorrow (t : task) : bool :=
  match fromisoformat (deadline t) with
  | Some d => (dt_date d =? dt_date now + 1)%Z && negb (done t)
  | None => false
  end.

(** The number of tasks that are not done. *)
Definition pending (tasks : list task) : nat :=
  List.length (filter (fun t => negb (done t)) tasks).

End Vocabulary2.

(** ** A route library for the runs *)

(** [n] on [w] digits at least, with leading zeros. *)
Fixpoint zeros (k : nat) (s : string) : string :=
  match k with
  | O => s
  | S k' => String "0" (zeros k' s)
  end.

Definition zpad (w : nat) (n : Z) : string :=
  let s := str_of_nat (Z.to_nat n) in zeros (w - String.length s) s.

Definition two (n : Z) : string := zpad 2 n.

(** [d.isoformat()]: date, [T], time, the microseconds when there are
    some, and the offset of an aware value. *)
Definition isoformat_py (d : datetime) : string :=
  match ord2ymd (dt_date d) with
  | (y, m, dd) =>
      let tod := (dt_wall d mod DAY_US)%Z in
      let us := (tod mod 1000000)%Z in
      let sec := (tod / 1000000)%Z in
      zpad 4 y ++ "-" ++ two m ++ "-" ++ two dd
      ++ "T" ++ two (sec / 3600) ++ ":" ++ two (sec / 60 mod 60) ++ ":"
      ++ two (sec mod 60)
      ++ (if (us =? 0)%Z then "" else "." ++ zpad 6 us)
      ++ match dt_offset d with
         | None => ""
         | Some off =>
             let a := Z.abs off in
             let ous := (a mod 1000000)%Z in
             let osec := (a / 1000000)%Z in
             (if (off <? 0)%Z then "-" else "+")
             ++ two (osec / 3600) ++ ":" ++ two (osec / 60 mod 60)
             ++ (if (osec mod 60 =? 0)%Z && (ous =? 0)%Z then ""
                 else ":" ++ two (osec mod 60))
             ++ (if (ous =? 0)%Z then ""
                 else "." ++ zpad 6 ous)
         end
  end.

(** One or two digits, as the fields [%m] and [%d] of [strptime] read
    them. *)
Definition read_short (s : string) : option (Z * string) :=
  match s with
  | String a (String b s') =>
      match digit_val a, digit_val b with
      | Some x, Some y => Some ((x * 10 + y)%Z, s')
      | Some x, None => Some (x, String b s')
      | None, _ => None
      end
  | String a EmptyString =>
      match digit_val a with Some x => Some (x, EmptyString) | None => None end
  | EmptyString => None
  end.

(** [datetime.strptime(s, "%Y-%m-%d")] on a four-digit year. *)
Definition strptime_ymd_py (s : string) : option datetime :=
  match read_digits 4 0 s with
  | Some (y, s) =>
      match expect "-" s with
      | Some s =>
          match read_short s with
          | Some (m, s) =>
              match expect "-" s with
              | Some s =>
                  match read_short s with
                  | Some (d, EmptyString) =>
                      if ((1 <=? y) && (1 <=? m) && (m <=? 12)
                          && (1 <=? d) && (d <=? days_in_month y m))%Z
                      then Some (of_fields (ymd2ord y m d) 0 None)
                      else None
                  | _ => None
                  end
              | None => None
              end
          | None => None
          end
      | None => None
      end
  | None => None
  end.

(** [d.strftime("%Y%m%d%H%M%S%f")] *)
Definition strftime_id_py (d : datetime) : string :=
  match ord2ymd (dt_date d) with
  | (y, m, dd) =>
      let tod := (dt_wall d mod DAY_US)%Z in
      let sec := (tod / 1000000)%Z in
      zpad 4 y ++ two m ++ two dd
      ++ two (sec / 3600) ++ two (sec / 60 mod 60) ++ two (sec mod 60)
      ++ zpad 6 (tod mod 1000000)
  end.

Definition python_routes : RouteLib :=
  {| isoformat := isoformat_py;
     strptime_ymd := strptime_ymd_py;
     strftime_id := strftime_id_py |}.

(* ================================================================== *)
(** * Properties of the string operations *)
(* ================================================================== *)

Section StringFacts.

Lemma startswith_nil s : startswith s "" = true.
Proof. destruct s; reflexivity. Qed.

Lemma str_in_eq w s :
  str_in w s = startswith s w
               || match s with
                  | EmptyString => false
                  | String _ s' => str_in w s'
                  end.
Proof. destruct s; reflexivity. Qed.

Lemma startswith_in w s : startswith s w = true -> str_in w s = true.
Proof. intros H. rewrite str_in_eq, H. reflexivity. Qed.

Lemma str_in_cons w c s : str_in w s = true -> str_in w (String c s) = true.
Proof. intros H. rewrite str_in_eq, H. apply orb_true_r. Qed.

Lemma str_in_empty w : w <> "" -> str_in w "" = false.
Proof. destruct w; [congruence | reflexivity]. Qed.

Lemma startswith_app s p : startswith s p = true -> s = p ++ drop (String.length p) s.
Proof.
  revert s. induction p as [|a p IH]; intros s H; simpl in *.
  - destruct s; reflexivity.
  - destruct s as [|b s]; [discriminate|].
    apply andb_true_iff in H as [Hab Hs].
    apply Ascii.eqb_eq in Hab. subst b. f_equal. now apply IH.
Qed.

Lemma startswith_lower s w :
  startswith s w = true -> startswith (lower s) (lower w) = true.
Proof.
  revert s. induction w as [|a w IH]; intros s H; simpl in *; [reflexivity|].
  destruct s as [|b s]; [discriminate|]. simpl.
  apply andb_true_iff in H as [Hab Hs].
  apply Ascii.eqb_eq in Hab. subst b.
  rewrite Ascii.eqb_refl. simpl. now apply IH.
Qed.

Lemma str_in_lower w s :
  lower w = w -> str_in w s = true -> str_in w (lower s) = true.
Proof.
  intros Hw. induction s as [|c s IH]; intros H.
  - exact H.
  - rewrite str_in_eq in H. apply orb_true_iff in H as [H|H].
    + apply startswith_in. apply startswith_lower in H. now rewrite Hw in H.
    + change (lower (String c s)) with (String (to_lower c) (lower s)).
      apply str_in_cons. now apply IH.
Qed.

Lemma str_in_lstrip w s :
  starts_solid w = true -> str_in w s = true -> str_in w (lstrip s) = true.
Proof.
  intros Hw. induction s as [|c s IH]; intros H; [exact H|].
  simpl lstrip. destruct (is_space c) eqn:Hc; [|exact H].
  rewrite str_in_eq in H. apply orb_true_iff in H as [H|H]; [|now apply IH].
  exfalso. destruct w as [|a w]; [discriminate|]. simpl in *.
  apply andb_true_iff in H as [Hab _]. apply Ascii.eqb_eq in Hab. subst a.
  rewrite Hc in Hw. discriminate.
Qed.

Lemma rstrip_cons c s :
  rstrip s <> "" -> rstrip (String c s) = String c (rstrip s).
Proof. simpl. destruct (rstrip s); [congruence | reflexivity]. Qed.

Lemma startswith_nonempty s w : w <> "" -> startswith s w = true -> s <> "".
Proof. destruct w; [congruence|]. destruct s; simpl; congruence. Qed.

Lemma startswith_rstrip w : forall s,
  ends_solid w = true -> startswith s w = true -> startswith (rstrip s) w = true.
Proof.
  induction w as [|a w IH]; intros s Hw H; [discriminate|].
  destruct s as [|b s]; [discriminate|].
  simpl in H. apply andb_true_iff in H as [Hab Hs].
  destruct w as [|a' w].
  - simpl in Hw. apply Ascii.eqb_eq in Hab. subst b.
    simpl. destruct (rstrip s).
    + apply negb_true_iff in Hw. rewrite Hw. simpl. now rewrite Ascii.eqb_refl.
    + simpl. now rewrite Ascii.eqb_refl.
  - assert (Hr : startswith (rstrip s) (String a' w) = true) by (apply IH; assumption).
    rewrite rstrip_cons.
    + change (Ascii.eqb a b && startswith (rstrip s) (String a' w) = true).
      now rewrite Hab, Hr.
    + eapply startswith_nonempty; [|exact Hr]. discriminate.
Qed.

Lemma str_in_nonempty w s : w <> "" -> str_in w s = true -> s <> "".
Proof. intros Hw H E. subst s. rewrite str_in_empty in H; congruence. Qed.

Lemma str_in_rstrip w s :
  ends_solid w = true -> str_in w s = true -> str_in w (rstrip s) = true.
Proof.
  intros Hw. assert (Hne : w <> "") by (destruct w; [discriminate | congruence]).
  induction s as [|c s IH]; intros H; [exact H|].
  rewrite str_in_eq in H. apply orb_true_iff in H as [H|H].
  - apply startswith_in. now apply startswith_rstrip.
  - specialize (IH H). rewrite rstrip_cons.
    + now apply str_in_cons.
    + eapply str_in_nonempty; eassumption.
Qed.

(** A lower-case word without blanks at its ends that occurs in the raw
    input still occurs in the normalised text. *)
Lemma str_in_normalize w q :
  lower w = w -> starts_solid w = true -> ends_solid w = true ->
  str_in w q = true -> str_in w (normalize q) = true.
Proof.
  intros Hl Hs He H. unfold normalize, strip.
  apply str_in_rstrip; [assumption|].
  apply str_in_lstrip; [assumption|].
  now apply str_in_lower.
Qed.

(** [replace] leaves alone a text in which the pattern does not occur. *)
Lemma replace_absent old new s :
  old <> "" -> str_in old s = false -> replace_from 0 s old new = s.
Proof.
  intros Ho. induction s as [|c s IH]; intros H.
  - simpl. destruct old; [congruence | reflexivity].
  - rewrite str_in_eq in H. apply orb_false_iff in H as [H1 H2].
    change (replace_from 0 (String c s) old new)
      with (if startswith (String c s) old
            then new ++ match old with
                        | EmptyString => String c (replace_from 0 s old new)
                        | _ => replace_from (String.length old - 1) s old new
                        end
            else String c (replace_from 0 s old new)).
    rewrite H1. f_equal. now apply IH.
Qed.

Lemma replace_from_skip old new a : forall rest,
  replace_from (String.length a) (a ++ rest) old new
  = replace_from 0 rest old new.
Proof. induction a as [|c a IH]; intros rest; simpl; [reflexivity | apply IH]. Qed.

(** Removing the occurrences of a command word from a text that opens
    with it and does not hold it again leaves what follows the word. *)
Lemma replace_leading old s :
  old <> "" -> startswith s old = true ->
  str_in old (drop (String.length old) s) = false ->
  replace s old "" = drop (String.length old) s.
Proof.
  intros Ho Hs Hrest. unfold replace.
  destruct old as [|a old]; [congruence|].
  pose proof (startswith_app _ _ Hs) as E.
  set (rest := drop (String.length (String a old)) s) in *.
  rewrite E at 1. simpl append.
  change (replace_from 0 (String a (old ++ rest)) (String a old) "")
    with (if startswith (String a (old ++ rest)) (String a old)
          then "" ++ replace_from (String.length (String a old) - 1)
                       (old ++ rest) (String a old) ""
          else String a (replace_from 0 (old ++ rest) (String a old) "")).
  change (String a (old ++ rest)) with (String a old ++ rest).
  rewrite <- E, Hs.
  replace (String.length (String a old) - 1)%nat with (String.length old)
    by (simpl; lia).
  rewrite replace_from_skip. simpl append.
  apply replace_absent; [discriminate | assumption].
Qed.

End StringFacts.

(* ================================================================== *)
(** * Properties of the list operations *)
(* ================================================================== *)

Section ListFacts.

Local Open Scope list_scope.

Lemma task_eqb_eq a b : task_eqb a b = true -> a = b.
Proof.
  unfold task_eqb. intros H.
  repeat (apply andb_true_iff in H as [H ?]).
  destruct a, b; simpl in *.
  repeat match goal with
         | E : String.eqb _ _ = true |- _ => apply String.eqb_eq in E
         | E : Bool.eqb _ _ = true |- _ => apply Bool.eqb_prop in E
         end.
  subst. reflexivity.
Qed.

Lemma task_eqb_refl a : task_eqb a a = true.
Proof.
  unfold task_eqb. rewrite !String.eqb_refl, Bool.eqb_reflx. reflexivity.
Qed.

(** A filter that keeps a single element splits the list around it. *)
Lemma filter_single (f : task -> bool) : forall l t,
  filter f l = [t] ->
  exists l1 l2, l = l1 ++ t :: l2 /\ f t = true
                /\ filter f l1 = [] /\ filter f l2 = [].
Proof.
  induction l as [|x l IH]; intros t H; [discriminate|].
  simpl in H. destruct (f x) eqn:Hx.
  - injection H as -> Hl. exists [], l. simpl. auto.
  - destruct (IH _ H) as (l1 & l2 & -> & Ht & H1 & H2).
    exists (x :: l1), l2. simpl. rewrite Hx. auto.
Qed.

Lemma filter_nil_false (f : task -> bool) l u :
  filter f l = [] -> In u l -> f u = false.
Proof.
  induction l as [|x l IH]; simpl; [tauto|].
  destruct (f x) eqn:Hx; [discriminate|].
  intros H [->|Hu]; auto.
Qed.

Lemma length_one (l : list task) : List.length l = 1%nat -> exists t, l = [t].
Proof. destruct l as [|t [|]]; try discriminate. now exists t. Qed.

(** [remove] takes out the element a one-match filter selected: an
    element equal to it would have been selected too. *)
Lemma list_remove_single (f : task -> bool) l1 t l2 :
  f t = true -> filter f l1 = [] ->
  list_remove t (l1 ++ t :: l2) = Some (l1 ++ l2).
Proof.
  intros Ht. induction l1 as [|x l1 IH]; simpl; intros H1.
  - now rewrite task_eqb_refl.
  - destruct (f x) eqn:Hx; [discriminate|].
    destruct (task_eqb x t) eqn:E.
    + apply task_eqb_eq in E. congruence.
    + now rewrite IH.
Qed.

Lemma find_existsb (f : task -> bool) l :
  existsb f l = match find f l with Some _ => true | None => false end.
Proof.
  induction l as [|x l IH]; simpl; [reflexivity|].
  destruct (f x); simpl; [reflexivity | exact IH].
Qed.

(** The first match of [find] is the position [mark_first] rewrites. *)
Lemma find_mark_first (f : task -> bool) : forall l t,
  find f l = Some t ->
  exists l1 l2, l = l1 ++ t :: l2 /\ f t = true /\ filter f l1 = []
                /\ mark_first f l = l1 ++ set_done t :: l2.
Proof.
  induction l as [|x l IH]; intros t H; [discriminate|].
  simpl in H. destruct (f x) eqn:Hx.
  - injection H as ->. exists [], l. simpl. rewrite Hx. auto.
  - destruct (IH _ H) as (l1 & l2 & -> & Ht & H1 & Hm).
    exists (x :: l1), l2. simpl. rewrite Hx, Hm. auto.
Qed.

End ListFacts.

(* ================================================================== *)
(** * Properties of the interpreter *)
(* ================================================================== *)

Section InterpreterFacts.

Context {lib : DatetimeLib}.

(** The chain of tests of [ai_process] runs the handler of the first
    rule that applies. *)
Lemma ai_process_dispatch q tasks p :
  ai_process q tasks p =
  match classify (normalize q) with
  | Greeting => (Returns (Text "Hai! Ada yang bisa saya bantu?"), tasks)
  | Identity =>
      (Returns (Text "Saya SmartTask AI — asisten tugas dan pengingat."), tasks)
  | WellBeing => (Returns (Text "Baik, terima kasih! Kamu gimana?"), tasks)
  | Hapus => do_hapus (normalize q) tasks
  | Selesai => do_selesai (normalize q) tasks
  | Terdekat => (do_terdekat tasks, tasks)
  | Minggu => (do_minggu tasks, tasks)
  | Besok => (do_besok tasks, tasks)
  | Jumlah => (do_jumlah tasks, tasks)
  | Daftar => (do_daftar tasks p, tasks)
  | Lookup => (do_lookup (normalize q) tasks p, tasks)
  end.
Proof.
  unfold ai_process, classify, normalize.
  repeat match goal with
         | |- context [if ?c then _ else _] => destruct c
         end; reflexivity.
Qed.

(** ** [hapus] *)

Lemma do_hapus_one text tasks :
  matches (strip (replace text "hapus" "")) tasks = 1%nat ->
  exists l1 t l2,
    tasks = (l1 ++ t :: l2)%list
    /\ name_has (strip (replace text "hapus" "")) t = true
    /\ filter (name_has (strip (replace text "hapus" ""))) l1 = []
    /\ filter (name_has (strip (replace text "hapus" ""))) l2 = []
    /\ do_hapus text tasks
       = (Returns (Save ("Tugas '" ++ name t ++ "' dihapus.")), (l1 ++ l2)%list).
Proof.
  unfold matches, do_hapus. intros H.
  destruct (length_one _ H) as [t Ht].
  destruct (filter_single _ _ _ Ht) as (l1 & l2 & E & Hm & H1 & H2).
  exists l1, t, l2. repeat split; try assumption.
  rewrite Ht. simpl. subst tasks.
  now rewrite (list_remove_single _ _ _ _ Hm H1).
Qed.

Lemma do_hapus_other text tasks :
  matches (strip (replace text "hapus" "")) tasks <> 1%nat ->
  do_hapus text tasks =
  (Returns (Text
     (if (1 <? matches (strip (replace text "hapus" "")) tasks)%nat
      then "Ditemukan "
           ++ str_of_nat (matches (strip (replace text "hapus" "")) tasks)
           ++ " tugas. Sebutkan nama lebih spesifik."
      else "Tugas '" ++ strip (replace text "hapus" "") ++ "' tidak ditemukan.")),
   tasks).
Proof.
  unfold matches, do_hapus. intros H.
  apply Nat.eqb_neq in H. rewrite H.
  destruct (1 <? _)%nat; reflexivity.
Qed.

(** ** [selesai] *)

Lemma do_selesai_found text tasks :
  existsb (name_has (strip (replace text "selesai" ""))) tasks = true ->
  exists l1 t l2,
    tasks = (l1 ++ t :: l2)%list
    /\ name_has (strip (replace text "selesai" "")) t = true
    /\ filter (name_has (strip (replace text "selesai" ""))) l1 = []
    /\ do_selesai text tasks
       = (Returns (Save ("Tugas '" ++ name t ++ "' ditandai selesai.")),
          (l1 ++ set_done t :: l2)%list).
Proof.
  unfold do_selesai. rewrite find_existsb.
  destruct (find _ tasks) as [t|] eqn:F; [intros _ | discriminate].
  destruct (find_mark_first _ _ _ F) as (l1 & l2 & E & Ht & H1 & Hm).
  exists l1, t, l2. rewrite Hm. auto.
Qed.

Lemma do_selesai_none text tasks :
  existsb (name_has (strip (replace text "selesai" ""))) tasks = false ->
  do_selesai text tasks
  = (Returns (Text ("Tugas '" ++ strip (replace text "selesai" "")
                    ++ "' tidak ditemukan.")), tasks).
Proof.
  unfold do_selesai. rewrite find_existsb.
  destruct (find _ tasks); [discriminate | reflexivity].
Qed.

(** ** The order of the deadlines and the sort *)

Lemma dt_lt_same_kind a b :
  same_kind a b = true -> dt_lt a b = Some (rank a <? rank b)%Z.
Proof.
  unfold same_kind, dt_lt, dt_cmp, rank.
  destruct (dt_offset a), (dt_offset b); try discriminate; intros _;
    match goal with
    | |- context [(?x ?= ?y)%Z] =>
        destruct (Z.compare_spec x y); f_equal; symmetry;
        [apply Z.ltb_ge | apply Z.ltb_lt | apply Z.ltb_ge]; lia
    end.
Qed.

Lemma uniform_kind_spec l a b da db :
  uniform_kind l = true -> In a l -> In b l ->
  parse_dt a = Some da -> parse_dt b = Some db -> same_kind da db = true.
Proof.
  unfold uniform_kind. intros H Ha Hb Ea Eb.
  rewrite forallb_forall in H. specialize (H a Ha).
  rewrite forallb_forall in H. specialize (H b Hb).
  now rewrite Ea, Eb in H.
Qed.

Lemma upcoming_has_dt tasks t : In t (upcoming tasks) -> has_dt t = true.
Proof. unfold upcoming. intros H. now apply filter_In in H. Qed.

Lemma key_lt_rank l a b :
  uniform_kind l = true -> (forall t, In t l -> has_dt t = true) ->
  In a l -> In b l -> key_lt a b = Some (key_rank a <? key_rank b)%Z.
Proof.
  intros U D Ha Hb. unfold key_lt, key_rank.
  pose proof (D a Ha) as Da. pose proof (D b Hb) as Db. unfold has_dt in Da, Db.
  destruct (parse_dt a) as [da|] eqn:Ea; [|discriminate].
  destruct (parse_dt b) as [db|] eqn:Eb; [|discriminate].
  apply dt_lt_same_kind. now apply (uniform_kind_spec l a b).
Qed.

Section Sorting.

Local Open Scope list_scope.

Variable r : task -> Z.

Lemma insert_by_key_ok x l :
  ranked r (x :: l) ->
  exists s, insert_by_key x l = Some s
            /\ (forall u, In u s <-> In u (x :: l))
            /\ hd x s = match l with
                        | [] => x
                        | y :: _ => if (r y <? r x)%Z then y else x
                        end.
Proof.
  induction l as [|y l IH]; intros R.
  - exists [x]. simpl. repeat split; tauto.
  - simpl. rewrite (R y x) by (simpl; auto).
    destruct (r y <? r x)%Z eqn:E.
    + destruct IH as (s & Hs & Hin & _).
      { intros a b Ha Hb. apply R; simpl in *; tauto. }
      rewrite Hs. exists (y :: s). simpl. repeat split; try reflexivity.
      * intros [->|Hu]; [tauto|]. apply Hin in Hu. simpl in Hu. tauto.
      * intros [->|[->|Hu]]; try tauto; right; apply Hin; simpl; tauto.
    + exists (x :: y :: l). simpl. repeat split; tauto.
Qed.

(** The sort succeeds, keeps the elements, and puts first the leftmost
    element of least rank. *)
Lemma sort_by_key_ok : forall l,
  ranked r l ->
  exists s, sort_by_key l = Some s
            /\ (forall u, In u s <-> In u l)
            /\ match l with
               | [] => s = []
               | _ => exists l1 t l2 s',
                   l = l1 ++ t :: l2 /\ s = t :: s'
                   /\ (forall u, In u l1 -> (r t < r u)%Z)
                   /\ (forall u, In u l2 -> (r t <= r u)%Z)
               end.
Proof.
  induction l as [|x l IH]; intros R.
  - exists []. simpl. repeat split; tauto.
  - destruct IH as (s0 & Hs0 & Hin0 & Hhd0).
    { intros a b Ha Hb. apply R; simpl; tauto. }
    destruct (insert_by_key_ok x s0) as (s & Hs & Hin & Hhd).
    { intros a b Ha Hb. apply R; simpl in *.
      - destruct Ha as [Ha|Ha]; [tauto | right; now apply Hin0].
      - destruct Hb as [Hb|Hb]; [tauto | right; now apply Hin0]. }
    exists s. simpl sort_by_key. rewrite Hs0. split; [exact Hs|]. split.
    { intros u. rewrite Hin. simpl. now rewrite Hin0. }
    destruct l as [|y l].
    + subst s0. simpl in Hs. injection Hs as <-.
      exists [], x, [], []. simpl. repeat split; tauto.
    + destruct Hhd0 as (l1 & t & l2 & s' & El & -> & H1 & H2).
      simpl in Hhd. destruct s as [|h s]; [exfalso; apply (Hin x); simpl; auto|].
      simpl in Hhd. destruct (r t <? r x)%Z eqn:E.
      * subst h. exists (x :: l1), t, l2, s. rewrite El. simpl.
        repeat split; try assumption.
        intros u [<-|Hu]; [now apply Z.ltb_lt | now apply H1].
      * subst h. apply Z.ltb_ge in E.
        exists [], x, (y :: l), s. simpl. repeat split; try tauto.
        intros u Hu. change (In u (y :: l)) in Hu. rewrite El in Hu.
        apply in_app_or in Hu as [Hu|[<-|Hu]].
        -- specialize (H1 u Hu). lia.
        -- assumption.
        -- specialize (H2 u Hu). lia.
Qed.

End Sorting.

(** ** Which rule answers *)

Lemma classify_hapus text :
  small_talk text = false -> startswith text "hapus" = true ->
  classify text = Hapus.
Proof.
  unfold small_talk, classify. intros H S. rewrite S.
  repeat match goal with
         | _ : context [if ?c then _ else _] |- _ => destruct c
         end; try discriminate; reflexivity.
Qed.

Lemma selesai_not_hapus text :
  startswith text "selesai" = true -> startswith text "hapus" = false.
Proof.
  destruct text as [|a text]; [discriminate|]. cbn [startswith]. intros H.
  apply andb_true_iff in H as [H _]. apply Ascii.eqb_eq in H. now subst a.
Qed.

Lemma classify_selesai text :
  small_talk text = false -> startswith text "selesai" = true ->
  classify text = Selesai.
Proof.
  intros H S. pose proof (selesai_not_hapus _ S) as S'.
  revert H. unfold small_talk, classify. rewrite S, S'.
  repeat match goal with
         | |- context [if ?c then _ else _] => destruct c
         end; try discriminate; reflexivity.
Qed.

Lemma hapus_filter_is_remainder text :
  startswith text "hapus" = true ->
  str_in "hapus" (drop 5 text) = false ->
  strip (replace text "hapus" "") = remainder_after "hapus" text.
Proof.
  intros S R. unfold remainder_after. f_equal.
  apply replace_leading; [discriminate | assumption | exact R].
Qed.

Lemma selesai_filter_is_remainder text :
  startswith text "selesai" = true ->
  str_in "selesai" (drop 7 text) = false ->
  strip (replace text "selesai" "") = remainder_after "selesai" text.
Proof.
  intros S R. unfold remainder_after. f_equal.
  apply replace_leading; [discriminate | assumption | exact R].
Qed.

(** ** The claims on the greeting and on [hapus] *)

(** C5. First match wins: an input that holds one of the greeting words
    [halo], [hai], [hello], [hi], as it was typed or once lower-cased and
    trimmed, gets the greeting, and the list of tasks is returned as it
    was, with no request to save, whatever else the input holds. *)
Theorem greeting_takes_precedence q tasks p w :
  In w greetings ->
  str_in w q = true \/ str_in w (normalize q) = true ->
  ai_process q tasks p
  = (Returns (Text "Hai! Ada yang bisa saya bantu?"), tasks).
Proof.
  intros Hw H.
  assert (Hn : str_in w (normalize q) = true).
  { destruct H as [H|H]; [|exact H].
    simpl in Hw.
    destruct Hw as [<-|[<-|[<-|[<-|[]]]]];
      (apply str_in_normalize; [reflexivity | reflexivity | reflexivity | exact H]). }
  assert (Ha : any_in greetings (normalize q) = true).
  { unfold any_in. apply existsb_exists. now exists w. }
  rewrite ai_process_dispatch. unfold classify. now rewrite Ha.
Qed.

(** C2, as amended.  When none of the small-talk rules answers, the
    text starts with [hapus] and does not hold [hapus] again, and the
    remainder (the text after the prefix, trimmed) occurs in the
    lower-cased name of exactly one task, that task is taken out of the
    list, the other tasks stay as they were and in their order, and the
    reply asks for the list to be saved. *)
Theorem hapus_removes_single_match q tasks p :
  small_talk (normalize q) = false ->
  startswith (normalize q) "hapus" = true ->
  str_in "hapus" (drop 5 (normalize q)) = false ->
  matches (remainder_after "hapus" (normalize q)) tasks = 1%nat ->
  exists l1 t l2,
    tasks = (l1 ++ t :: l2)%list
    /\ name_has (remainder_after "hapus" (normalize q)) t = true
    /\ ai_process q tasks p
       = (Returns (Save ("Tugas '" ++ name t ++ "' dihapus.")), (l1 ++ l2)%list).
Proof.
  intros Hst Hs Hr Hm.
  rewrite ai_process_dispatch, (classify_hapus _ Hst Hs).
  rewrite <- (hapus_filter_is_remainder _ Hs Hr) in *.
  destruct (do_hapus_one _ _ Hm) as (l1 & t & l2 & E & Ht & _ & _ & Hd).
  exists l1, t, l2. auto.
Qed.

(** C3, as amended.  When the text starts with [hapus] and does not hold
    [hapus] again, and the remainder occurs in the names of [N] tasks
    with [N] different from 1, the list is returned as it was and no
    save is requested; and unless a small-talk rule answered, the reply
    gives the count [N] and asks for a more specific name when [N > 1],
    and says that the remainder was not found when [N = 0]; the two
    replies differ. *)
Theorem hapus_ambiguous_or_missing q tasks p :
  startswith (normalize q) "hapus" = true ->
  str_in "hapus" (drop 5 (normalize q)) = false ->
  matches (remainder_after "hapus" (normalize q)) tasks <> 1%nat ->
  snd (ai_process q tasks p) = tasks
  /\ wants_save (fst (ai_process q tasks p)) = false
  /\ (small_talk (normalize q) = true
      \/ fst (ai_process q tasks p)
         = Returns (Text
             (if (1 <? matches (remainder_after "hapus" (normalize q)) tasks)%nat
              then "Ditemukan "
                   ++ str_of_nat (matches (remainder_after "hapus" (normalize q)) tasks)
                   ++ " tugas. Sebutkan nama lebih spesifik."
              else "Tugas '" ++ remainder_after "hapus" (normalize q)
                   ++ "' tidak ditemukan.")))
  /\ (forall n nm, "Ditemukan " ++ str_of_nat n
                   ++ " tugas. Sebutkan nama lebih spesifik."
                   <> "Tugas '" ++ nm ++ "' tidak ditemukan.").
Proof.
  intros Hs Hr Hm.
  rewrite <- (hapus_filter_is_remainder _ Hs Hr) in *.
  assert (D := do_hapus_other (normalize q) tasks Hm).
  rewrite ai_process_dispatch.
  destruct (small_talk (normalize q)) eqn:Hst.
  - unfold small_talk in Hst.
    destruct (classify (normalize q)); try discriminate; simpl;
      repeat split; auto; discriminate.
  - rewrite (classify_hapus _ Hst Hs), D. simpl.
    repeat split; auto; discriminate.
Qed.

(** ** [selesai], when the command word does not come back *)

Lemma selesai_marks_first_match q tasks p :
  small_talk (normalize q) = false ->
  startswith (normalize q) "selesai" = true ->
  str_in "selesai" (drop 7 (normalize q)) = false ->
  if existsb (name_has (remainder_after "selesai" (normalize q))) tasks
  then exists l1 t l2,
      tasks = (l1 ++ t :: l2)%list
      /\ name_has (remainder_after "selesai" (normalize q)) t = true
      /\ filter (name_has (remainder_after "selesai" (normalize q))) l1 = []
      /\ ai_process q tasks p
         = (Returns (Save ("Tugas '" ++ name t ++ "' ditandai selesai.")),
            (l1 ++ set_done t :: l2)%list)
  else ai_process q tasks p
       = (Returns (Text ("Tugas '" ++ remainder_after "selesai" (normalize q)
                         ++ "' tidak ditemukan.")), tasks).
Proof.
  intros Hst Hs Hr.
  rewrite ai_process_dispatch, (classify_selesai _ Hst Hs).
  rewrite <- (selesai_filter_is_remainder _ Hs Hr).
  destruct (existsb _ tasks) eqn:E.
  - apply do_selesai_found, E.
  - apply do_selesai_none, E.
Qed.

(** ** The frame *)

Ltac case_handler :=
  repeat match goal with
         | |- context [match ?x with _ => _ end] => destruct x
         end.

Lemma do_terdekat_no_save tasks : wants_save (do_terdekat tasks) = false.
Proof. unfold do_terdekat. case_handler; reflexivity. Qed.

Lemma do_minggu_no_save tasks : wants_save (do_minggu tasks) = false.
Proof. unfold do_minggu. case_handler; reflexivity. Qed.

Lemma do_besok_no_save tasks : wants_save (do_besok tasks) = false.
Proof. unfold do_besok. case_handler; reflexivity. Qed.

Lemma do_daftar_no_save tasks p : wants_save (do_daftar tasks p) = false.
Proof. unfold do_daftar. case_handler; reflexivity. Qed.

Lemma do_lookup_no_save text tasks p : wants_save (do_lookup text tasks p) = false.
Proof. unfold do_lookup. case_handler; reflexivity. Qed.

Lemma ai_process_frame q tasks p :
  wants_save (fst (ai_process q tasks p)) = mutating (normalize q) tasks
  /\ (mutating (normalize q) tasks = true
      \/ snd (ai_process q tasks p) = tasks).
Proof.
  rewrite ai_process_dispatch. unfold mutating.
  destruct (classify (normalize q)); simpl;
    rewrite ?do_terdekat_no_save, ?do_minggu_no_save, ?do_besok_no_save,
      ?do_daftar_no_save, ?do_lookup_no_save; auto.
  - destruct (Nat.eqb_spec (matches (strip (replace (normalize q) "hapus" "")) tasks) 1)
      as [E|E].
    + destruct (do_hapus_one _ _ E) as (l1 & t & l2 & _ & _ & _ & _ & ->). auto.
    + rewrite (do_hapus_other _ _ E). auto.
  - destruct (existsb _ tasks) eqn:E.
    + destruct (do_selesai_found _ _ E) as (l1 & t & l2 & _ & _ & _ & ->). auto.
    + rewrite (do_selesai_none _ _ E). auto.
Qed.

Lemma mutating_empty_text tasks : mutating (normalize "") tasks = false.
Proof. reflexivity. Qed.

(** C10.  A save is requested exactly on the two mutating paths, a
    [hapus] whose filter selects one task and a [selesai] whose filter
    selects at least one; on every other path, whichever rule answers,
    the list is returned element for element as it was; and [api_query]
    writes the list back on those two paths only. *)
Theorem only_two_paths_mutate q tasks p :
  wants_save (fst (ai_process q tasks p)) = mutating (normalize q) tasks
  /\ (mutating (normalize q) tasks = true
      \/ snd (ai_process q tasks p) = tasks)
  /\ match classify (normalize q) with
     | Hapus | Selesai => True
     | _ => mutating (normalize q) tasks = false
     end
  /\ api_query_store q tasks p
     = if mutating (normalize (strip q)) tasks
       then snd (ai_process (strip q) tasks p)
       else tasks.
Proof.
  split; [apply ai_process_frame|]. split; [apply ai_process_frame|]. split.
  - unfold mutating. destruct (classify (normalize q)); auto.
  - unfold api_query_store.
    destruct (String.eqb_spec (strip q) "") as [E|E].
    + rewrite E. now rewrite mutating_empty_text.
    + destruct (ai_process_frame (strip q) tasks p) as [W F].
      rewrite <- W.
      destruct (ai_process (strip q) tasks p) as [[[t|t]|e] tasks'];
        simpl in *; try reflexivity;
        destruct F as [F|F]; congruence.
Qed.

(** C9.  A query that does not ask for a save leaves behind the list it
    was given, so that asking it again, with the same profile and the
    same clock, gives the same reply. *)
Theorem read_only_query_repeats q tasks p :
  wants_save (fst (ai_process q tasks p)) = false ->
  ai_process q (snd (ai_process q tasks p)) p = ai_process q tasks p.
Proof.
  intros H. destruct (ai_process_frame q tasks p) as [W [F|F]].
  - congruence.
  - now rewrite F.
Qed.

(** ** [daftar] *)

Lemma append_assoc (a b c : string) : (a ++ b) ++ c = a ++ b ++ c.
Proof. induction a as [|x a IH]; simpl; [reflexivity | now rewrite IH]. Qed.

(** C8.  When the list-all rule answers, every task gives one line, and
    the line carries the upper-cased priority and the note exactly when
    the plan of the profile is ["pro"]: a missing plan or any other value
    gives the line with the name and the formatted date only. *)
Theorem daftar_lines_follow_plan q tasks p :
  classify (normalize q) = Daftar ->
  fst (ai_process q tasks p)
  = Returns (Text
      (match tasks with
       | [] => "Belum ada tugas."
       | _ => "Daftar tugas:" ++ nl
              ++ join nl (map (if plan_is_pro p then line_pro else line_basic)
                            tasks)
       end))
  /\ (plan_is_pro p = true <-> plan p = Some "pro")
  /\ (forall t, line_basic t
                = "- " ++ name t ++ " (" ++ format_date_iso (deadline t) ++ ")")
  /\ (forall t, line_pro t
                = line_basic t ++ " • " ++ upper (priority t) ++ " • " ++ note t).
Proof.
  intros C. rewrite ai_process_dispatch, C. simpl. repeat split.
  - unfold do_daftar. destruct tasks; [reflexivity|].
    destruct (plan_is_pro p); reflexivity.
  - unfold plan_is_pro. destruct (plan p) as [s|]; [|discriminate].
    intros H. apply String.eqb_eq in H. now subst.
  - unfold plan_is_pro. intros ->. reflexivity.
  - intros t. unfold line_pro, line_basic. cbn [append].
    repeat (rewrite append_assoc; cbn [append]). reflexivity.
Qed.

(** ** [terdekat], when the deadlines compare *)

Lemma do_terdekat_unfold tasks :
  do_terdekat tasks =
  match upcoming tasks with
  | [] => Returns (Text "Tidak ada tugas mendatang atau semua deadline tidak valid.")
  | _ =>
      match sort_by_key (upcoming tasks) with
      | None => Raises TypeError
      | Some (t :: _) =>
          Returns (Text ("Deadline terdekat adalah '" ++ name t ++ "' pada "
                         ++ format_date_iso (deadline t) ++ "."))
      | Some [] => Raises IndexError
      end
  end.
Proof. reflexivity. Qed.

Lemma upcoming_ranked tasks :
  uniform_kind (upcoming tasks) = true -> ranked key_rank (upcoming tasks).
Proof.
  intros U a b Ha Hb.
  apply (key_lt_rank (upcoming tasks)); try assumption.
  intros t. apply upcoming_has_dt.
Qed.

(** Among the tasks that are not done and whose deadline parses, all
    naive or all aware, the one reported has no later deadline than any
    other, and comes first in the list among those of that deadline. *)
Lemma do_terdekat_earliest tasks :
  uniform_kind (upcoming tasks) = true ->
  match upcoming tasks with
  | [] => do_terdekat tasks
          = Returns (Text "Tidak ada tugas mendatang atau semua deadline tidak valid.")
  | _ => exists l1 t l2,
      upcoming tasks = (l1 ++ t :: l2)%list
      /\ (forall u, In u l1 -> key_lt t u = Some true)
      /\ (forall u, In u l2 -> key_lt u t = Some false)
      /\ do_terdekat tasks
         = Returns (Text ("Deadline terdekat adalah '" ++ name t ++ "' pada "
                          ++ format_date_iso (deadline t) ++ "."))
  end.
Proof.
  intros U. rewrite do_terdekat_unfold.
  pose proof (upcoming_ranked _ U) as R.
  destruct (sort_by_key_ok key_rank _ R) as (s & Hs & Hin & Hhd).
  rewrite Hs.
  destruct (upcoming tasks) as [|x l] eqn:E; [reflexivity|].
  destruct Hhd as (l1 & t & l2 & s' & El & -> & H1 & H2).
  exists l1, t, l2. split; [exact El|].
  assert (It : In t (x :: l)) by (rewrite El; apply in_or_app; simpl; auto).
  repeat split.
  - intros u Hu. rewrite (R t u); try assumption.
    + f_equal. apply Z.ltb_lt. now apply H1.
    + rewrite El. apply in_or_app. auto.
  - intros u Hu. rewrite (R u t); try assumption.
    + f_equal. apply Z.ltb_ge. now apply H2.
    + rewrite El. apply in_or_app. simpl. auto.
Qed.

(** ** Every path replies, when the deadlines compare *)

Lemma add_days_today n :
  clock_in_range = true -> (1 <= n <= 7)%Z ->
  exists d, add_days today_start n = Some d.
Proof.
  unfold clock_in_range, add_days, today_start, at_midnight, dt_date.
  intros H Hn. apply andb_true_iff in H as [H1 H2].
  apply Z.ltb_lt in H1. apply Z.leb_le in H2. simpl.
  rewrite Z.div_mul by discriminate.
  set (d := (dt_wall now / DAY_US)%Z) in *.
  assert ((0 <? d + n)%Z = true) as -> by (apply Z.ltb_lt; lia).
  assert ((d + n <=? MAXORDINAL)%Z = true) as -> by (apply Z.leb_le; lia).
  simpl. eauto.
Qed.

Ltac replies_now :=
  eexists; split; [reflexivity | simpl; discriminate].

Lemma ai_process_replies q tasks p :
  uniform_kind (upcoming tasks) = true -> clock_in_range = true ->
  replies (fst (ai_process q tasks p)).
Proof.
  intros U C. rewrite ai_process_dispatch.
  destruct (classify (normalize q)); simpl; try replies_now.
  - destruct (Nat.eqb_spec (matches (strip (replace (normalize q) "hapus" "")) tasks) 1)
      as [E|E].
    + destruct (do_hapus_one _ _ E) as (l1 & t & l2 & _ & _ & _ & _ & ->).
      replies_now.
    + rewrite (do_hapus_other _ _ E). simpl.
      destruct (1 <? _)%nat; replies_now.
  - destruct (existsb (name_has (strip (replace (normalize q) "selesai" ""))) tasks) eqn:E.
    + destruct (do_selesai_found _ _ E) as (l1 & t & l2 & _ & _ & _ & ->).
      replies_now.
    + rewrite (do_selesai_none _ _ E). replies_now.
  - pose proof (do_terdekat_earliest tasks U) as T.
    destruct (upcoming tasks) as [|x l].
    + rewrite T. replies_now.
    + destruct T as (l1 & t & l2 & _ & _ & _ & ->). replies_now.
  - unfold do_minggu.
    destruct (add_days_today 7 C) as [d ->]; [lia|].
    destruct (filter _ tasks); replies_now.
  - unfold do_besok.
    destruct (add_days_today 1 C) as [d ->]; [lia|].
    destruct (filter _ tasks); replies_now.
  - unfold do_daftar. destruct tasks; [replies_now|].
    destruct (plan_is_pro p); replies_now.
  - unfold do_lookup. destruct (find _ tasks); [|replies_now].
    destruct (plan_is_pro p); replies_now.
Qed.

Lemma fallback_when_nothing_matches q tasks p :
  classify (normalize q) = Lookup ->
  existsb (fun t => str_in (lower (name t)) (normalize q)) tasks = false ->
  ai_process q tasks p
  = (Returns (Text "Saya tidak paham. Coba: 'deadline terdekat', 'tugas minggu ini', 'tugas besok', 'berapa tugas saya', atau 'hapus <nama tugas>'."),
     tasks).
Proof.
  intros C E. rewrite ai_process_dispatch, C. unfold do_lookup.
  rewrite find_existsb in E.
  destruct (find _ tasks); [discriminate | reflexivity].
Qed.

End InterpreterFacts.

(* ================================================================== *)
(** * Runs of the interpreter *)
(* ================================================================== *)

Section Runs.

Local Open Scope list_scope.

(** ** Where the code departs from the specification *)

(** C1.  The interpreter does not reply on every input: with one pending
    task whose deadline carries no offset and one whose deadline carries
    one, both written by [POST /api/tasks] as [isoformat()] gives them,
    the sort of [terdekat] compares a naive and an aware [datetime], and
    the [TypeError] leaves [ai_process].  The loop of [minggu], which
    makes the same comparison inside its [try], replies on the same
    list. *)
Theorem ai_process_raises_on_naive_and_aware_deadlines :
  let tasks := [new_task "t1" "Laporan" "2025-01-10T00:00:00";
                new_task "t2" "Kuis" "2025-01-05T09:00:00+07:00"] in
  fromisoformat_canonical "2025-01-10T00:00:00"
  = Some (of_fields (ymd2ord 2025 1 10) 0 None)
  /\ fromisoformat_canonical "2025-01-05T09:00:00+07:00"
     = Some (of_fields (ymd2ord 2025 1 5) 32400000000 (Some 25200000000%Z))
  /\ run "deadline terdekat" tasks basic_profile = (Raises TypeError, tasks)
  /\ run "tugas minggu ini" tasks basic_profile
     = (Returns (Text ("Tugas minggu ini:" ++ nl ++ "- Laporan (10 January 2025)")%string),
        tasks).
Proof. repeat split; reflexivity. Qed.

(** C4.  The filter of [hapus] is not the text after the prefix: every
    occurrence of [hapus] is taken out of the text, so a task whose name
    holds the word is not found under its own name, and a remainder that
    is an inflection of the word selects by what is left of it. *)
Theorem hapus_filter_loses_inner_hapus (lib : DatetimeLib) (p : profile) :
  let q := "hapus penghapusan data" in
  let tasks := [new_task "t1" "Penghapusan data" "2025-06-01T00:00:00"] in
  let lunch := [new_task "t2" "Makan siang" "2025-06-01T00:00:00"] in
  startswith (normalize q) "hapus" = true
  /\ remainder_after "hapus" (normalize q) = "penghapusan data"
  /\ matches (remainder_after "hapus" (normalize q)) tasks = 1%nat
  /\ strip (replace (normalize q) "hapus" "") = "pengan data"
  /\ ai_process q tasks p
     = (Returns (Text "Tugas 'pengan data' tidak ditemukan."), tasks)
  /\ matches (remainder_after "hapus" (normalize "hapus hapusan")) lunch = 0%nat
  /\ ai_process "hapus hapusan" lunch p
     = (Returns (Save "Tugas 'Makan siang' dihapus."), []).
Proof. repeat split; reflexivity. Qed.

(** C6.  The filter of [selesai] loses the occurrences of [selesai] in
    the same way: a task whose name contains the remainder is not marked
    when the remainder holds the command word again. *)
Theorem selesai_filter_loses_inner_selesai (lib : DatetimeLib) (p : profile) :
  let q := "Selesai tugas selesaikan bab 2" in
  let tasks := [new_task "t1" "Tugas selesaikan bab 2" "2025-06-01T00:00:00"] in
  small_talk (normalize q) = false
  /\ startswith (normalize q) "selesai" = true
  /\ remainder_after "selesai" (normalize q) = "tugas selesaikan bab 2"
  /\ existsb (name_has (remainder_after "selesai" (normalize q))) tasks = true
  /\ strip (replace (normalize q) "selesai" "") = "tugas kan bab 2"
  /\ ai_process q tasks p
     = (Returns (Text "Tugas 'tugas kan bab 2' tidak ditemukan."), tasks).
Proof. repeat split; reflexivity. Qed.

(** C7.  [terdekat] does not report the earliest pending task when the
    deadlines that parse are not all of one kind: both tasks below are
    pending and both deadlines parse, and the call ends in the
    [TypeError] of the sort instead of a reply. *)
Theorem terdekat_raises_on_naive_and_aware_deadlines :
  let tasks := [new_task "t1" "Presentasi" "2025-01-10T08:00:00Z";
                new_task "t2" "Ujian" "2025-01-05T08:00:00"] in
  small_talk (normalize "tugas terdekat apa") = false
  /\ upcoming (lib := canonical_lib) tasks = tasks
  /\ uniform_kind (lib := canonical_lib) tasks = false
  /\ sort_by_key (lib := canonical_lib) tasks = None
  /\ fst (run "tugas terdekat apa" tasks basic_profile) = Raises TypeError.
Proof. repeat split; reflexivity. Qed.

(** ** Inputs on which C2 and C3 do not hold as they are stated *)

(** C2, as stated, fails: the text starts with [hapus] and its remainder
    selects exactly one task, but it holds [hi], the greeting answers,
    and nothing is removed. *)
Lemma hapus_single_match_behind_greeting :
  let q := "hapus hitung pajak" in
  let tasks := [new_task "t1" "Hitung pajak" "2025-06-01T00:00:00";
                new_task "t2" "Laporan" "2025-06-02T00:00:00"] in
  startswith (normalize q) "hapus" = true
  /\ matches (remainder_after "hapus" (normalize q)) tasks = 1%nat
  /\ matches (strip (replace (normalize q) "hapus" "")) tasks = 1%nat
  /\ run q tasks basic_profile
     = (Returns (Text "Hai! Ada yang bisa saya bantu?"), tasks)
  /\ wants_save (fst (run q tasks basic_profile)) = false
  /\ snd (run q tasks basic_profile) = tasks.
Proof. repeat split; reflexivity. Qed.

(** C3, as stated, fails: the remainder selects two tasks, but the text
    holds [hi] and the reply is the greeting, which gives no count and
    does not ask for a more specific name. *)
Lemma hapus_ambiguous_behind_greeting :
  let q := "hapus hitung" in
  let tasks := [new_task "t1" "Hitung pajak" "2025-06-01T00:00:00";
                new_task "t2" "Hitung nilai" "2025-06-02T00:00:00"] in
  startswith (normalize q) "hapus" = true
  /\ matches (remainder_after "hapus" (normalize q)) tasks = 2%nat
  /\ matches (strip (replace (normalize q) "hapus" "")) tasks = 2%nat
  /\ fst (run q tasks basic_profile)
     = Returns (Text "Hai! Ada yang bisa saya bantu?")
  /\ fst (run q tasks basic_profile)
     <> Returns (Text "Ditemukan 2 tugas. Sebutkan nama lebih spesifik.")
  /\ str_in (str_of_nat 2) "Hai! Ada yang bisa saya bantu?" = false.
Proof. repeat split; try reflexivity. discriminate. Qed.

(** ** The theorems at concrete inputs *)

(** The greeting answers a text that starts with [hapus] and holds [hi]. *)
Lemma greeting_takes_precedence_witness :
  let tasks := [new_task "t1" "Hitung pajak" "2025-06-01T00:00:00"] in
  In "hi"%string greetings
  /\ str_in "hi" "Hapus hitung pajak" = true
  /\ run "Hapus hitung pajak" tasks basic_profile
     = (Returns (Text "Hai! Ada yang bisa saya bantu?"), tasks).
Proof.
  split; [simpl; tauto|]. split; [reflexivity|].
  apply (greeting_takes_precedence (lib := canonical_lib) _ _ _ "hi");
    [simpl; tauto | left; reflexivity].
Defined.

(** The scenario of the specification: [hapus math] removes [Math HW]. *)
Lemma hapus_removes_single_match_witness :
  let q := "hapus math" in
  let tasks := [new_task "t1" "Math HW" "2025-06-01T00:00:00"] in
  small_talk (normalize q) = false
  /\ startswith (normalize q) "hapus" = true
  /\ str_in "hapus" (drop 5 (normalize q)) = false
  /\ matches (remainder_after "hapus" (normalize q)) tasks = 1%nat
  /\ exists l1 t l2,
       tasks = l1 ++ t :: l2
       /\ name_has (remainder_after "hapus" (normalize q)) t = true
       /\ run q tasks basic_profile
          = (Returns (Save ("Tugas '" ++ name t ++ "' dihapus.")%string), l1 ++ l2).
Proof.
  repeat (split; [reflexivity|]).
  apply (hapus_removes_single_match (lib := canonical_lib)); reflexivity.
Defined.

(** [hapus tugas] with two tasks named [Tugas ...] removes nothing. *)
Lemma hapus_ambiguous_or_missing_witness :
  let q := "hapus tugas" in
  let tasks := [new_task "t1" "Tugas A" "2025-06-01T00:00:00";
                new_task "t2" "Tugas B" "2025-06-02T00:00:00"] in
  startswith (normalize q) "hapus" = true
  /\ str_in "hapus" (drop 5 (normalize q)) = false
  /\ matches (remainder_after "hapus" (normalize q)) tasks = 2%nat
  /\ snd (run q tasks basic_profile) = tasks
  /\ wants_save (fst (run q tasks basic_profile)) = false.
Proof.
  repeat (split; [reflexivity|]).
  pose proof (hapus_ambiguous_or_missing (lib := canonical_lib) "hapus tugas"
                [new_task "t1" "Tugas A" "2025-06-01T00:00:00";
                 new_task "t2" "Tugas B" "2025-06-02T00:00:00"] basic_profile
                eq_refl eq_refl) as H.
  destruct H as (H1 & H2 & _); [vm_compute; discriminate|].
  split; assumption.
Defined.

(** The list on the [pro] plan, one date parsed and one echoed. *)
Lemma daftar_lines_follow_plan_witness :
  let tasks := [mktask "t1" "Laporan" "2025-01-10T00:00:00" "high" "bab 3" false;
                new_task "t2" "Kuis" "lusa"] in
  classify (normalize "Tampilkan semua tugas") = Daftar
  /\ fst (run "Tampilkan semua tugas" tasks pro_profile)
     = Returns (Text ("Daftar tugas:" ++ nl
                      ++ "- Laporan (10 January 2025) • HIGH • bab 3" ++ nl
                      ++ "- Kuis (lusa) • MEDIUM • ")%string).
Proof.
  split; [reflexivity|].
  destruct (daftar_lines_follow_plan (lib := canonical_lib)
              "Tampilkan semua tugas"
              [mktask "t1" "Laporan" "2025-01-10T00:00:00" "high" "bab 3" false;
               new_task "t2" "Kuis" "lusa"] pro_profile eq_refl) as [H _].
  exact H.
Defined.

(** The count query, asked twice. *)
Lemma read_only_query_repeats_witness :
  let tasks := [new_task "t1" "Math HW" "2025-06-01T00:00:00"] in
  wants_save (fst (run "berapa tugas saya" tasks basic_profile)) = false
  /\ run "berapa tugas saya" (snd (run "berapa tugas saya" tasks basic_profile))
       basic_profile
     = run "berapa tugas saya" tasks basic_profile.
Proof.
  split; [reflexivity|].
  apply (read_only_query_repeats (lib := canonical_lib)). reflexivity.
Defined.

(** ** The scenarios of the specification *)

Example string_operations :
  strip (lower "  HaPus  Math HW ") = "hapus  math hw"
  /\ replace "hapus tugas hapus file" "hapus" "" = " tugas  file"
  /\ replace "aaaa" "aa" "b" = "bb"
  /\ replace "abc" "" "-" = "-a-b-c-"
  /\ str_of_nat 0 = "0" /\ str_of_nat 120 = "120"
  /\ join ", " ["a"; "b"; "c"]%string = "a, b, c".
Proof. repeat split; reflexivity. Qed.

Example calendar :
  ord2ymd 1 = (1, 1, 1)%Z
  /\ ord2ymd 730120 = (2000, 1, 1)%Z
  /\ ord2ymd (ymd2ord 2024 2 29) = (2024, 2, 29)%Z
  /\ ord2ymd (ymd2ord 2024 12 31) = (2024, 12, 31)%Z
  /\ ord2ymd MAXORDINAL = (9999, 12, 31)%Z
  /\ fromisoformat_canonical "2025-02-30" = None
  /\ option_map strftime_d_B_Y (fromisoformat_canonical "2025-06-01")
     = Some "01 June 2025"%string.
Proof. repeat split; reflexivity. Qed.

Example scenario_hapus_math :
  run "hapus math" [new_task "t1" "Math HW" "2025-06-01"] basic_profile
  = (Returns (Save "Tugas 'Math HW' dihapus."), []).
Proof. reflexivity. Qed.

Example scenario_jumlah :
  run "jumlah tugas saya" [new_task "t1" "Math HW" "2025-06-01"] basic_profile
  = (Returns (Text "Kamu punya 1 tugas."),
     [new_task "t1" "Math HW" "2025-06-01"]).
Proof. reflexivity. Qed.

Example scenario_count_three_of_five :
  fst (run "berapa tugas saya"
         [new_task "t1" "A" "2025-06-01";
          mktask "t2" "B" "2025-06-01" "low" "" true;
          new_task "t3" "C" "2025-06-01";
          mktask "t4" "D" "2025-06-01" "low" "" true;
          new_task "t5" "E" "2025-06-01"] basic_profile)
  = Returns (Text "Kamu punya 3 tugas.").
Proof. reflexivity. Qed.

Example scenario_terdekat :
  fst (run "deadline terdekat"
         [new_task "t1" "Laporan" "2025-01-10";
          new_task "t2" "Kuis" "2025-01-05"] basic_profile)
  = Returns (Text "Deadline terdekat adalah 'Kuis' pada 05 January 2025.").
Proof. reflexivity. Qed.

Example scenario_terdekat_skips_bad_dates :
  fst (run "deadline terdekat"
         [new_task "t1" "Laporan" "minggu depan";
          mktask "t2" "Kuis" "2025-01-05" "low" "" true;
          new_task "t3" "Esai" "2025-01-07"] basic_profile)
  = Returns (Text "Deadline terdekat adalah 'Esai' pada 07 January 2025.").
Proof. reflexivity. Qed.

Example scenario_selesai :
  run "selesai kuis"
    [new_task "t1" "Laporan" "2025-01-10";
     new_task "t2" "Kuis 1" "2025-01-05";
     new_task "t3" "Kuis 2" "2025-01-06"] basic_profile
  = (Returns (Save "Tugas 'Kuis 1' ditandai selesai."),
     [new_task "t1" "Laporan" "2025-01-10";
      set_done (new_task "t2" "Kuis 1" "2025-01-05");
      new_task "t3" "Kuis 2" "2025-01-06"]).
Proof. reflexivity. Qed.

Example selesai_marks_first_match_run :
  let q := "selesai kuis" in
  let tasks := [new_task "t1" "Laporan" "2025-01-10";
                new_task "t2" "Kuis 1" "2025-01-05"] in
  exists l1 t l2,
    tasks = l1 ++ t :: l2
    /\ name_has (remainder_after "selesai" (normalize q)) t = true
    /\ filter (name_has (remainder_after "selesai" (normalize q))) l1 = []
    /\ run q tasks basic_profile
       = (Returns (Save ("Tugas '" ++ name t ++ "' ditandai selesai.")%string),
          l1 ++ set_done t :: l2).
Proof.
  exact (selesai_marks_first_match (lib := canonical_lib) "selesai kuis"
           [new_task "t1" "Laporan" "2025-01-10";
            new_task "t2" "Kuis 1" "2025-01-05"] basic_profile
           eq_refl eq_refl eq_refl).
Qed.

Example ai_process_replies_run :
  replies (fst (run "tugas besok"
                  [new_task "t1" "Laporan" "2025-01-10";
                   new_task "t2" "Kuis" "2025-01-05"] basic_profile)).
Proof.
  apply (ai_process_replies (lib := canonical_lib)); reflexivity.
Qed.

Example fallback_run :
  fst (run "xyz" [new_task "t1" "Laporan" "2025-01-10"] basic_profile)
  = Returns (Text "Saya tidak paham. Coba: 'deadline terdekat', 'tugas minggu ini', 'tugas besok', 'berapa tugas saya', atau 'hapus <nama tugas>'.").
Proof.
  unfold run.
  rewrite (fallback_when_nothing_matches (lib := canonical_lib)); reflexivity.
Qed.

End Runs.

(* ================================================================== *)
(** * Further properties of the interpreter *)
(* ================================================================== *)

Section Normalisation.





Lemma lower_empty s : lower s = "" -> s = "".
Proof. destruct s; [reflexivity | discriminate]. Qed.







Lemma str_in_nil s : str_in "" s = true.
Proof. rewrite str_in_eq, startswith_nil. reflexivity. Qed.

End Normalisation.

Section FurtherFacts.

Context {lib : DatetimeLib}.

Local Open Scope list_scope.


Lemma filter_all (f : task -> bool) l :
  (forall t, f t = true) -> filter f l = l.
Proof.
  intros H. induction l as [|x l IH]; simpl; [reflexivity|].
  now rewrite H, IH.
Qed.

(** X2.  The command word [hapus] alone selects every task: it removes
    the task of a one-task list, reports the size of a longer list, and
    finds nothing in an empty one. *)
Theorem bare_hapus_selects_every_task q tasks p :
  normalize q = "hapus" ->
  ai_process q tasks p
  = match tasks with
    | [] => (Returns (Text "Tugas '' tidak ditemukan."), [])
    | [t] => (Returns (Save ("Tugas '" ++ name t ++ "' dihapus.")%string), [])
    | _ => (Returns (Text ("Ditemukan " ++ str_of_nat (List.length tasks)
                           ++ " tugas. Sebutkan nama lebih spesifik.")%string),
            tasks)
    end.
Proof.
  intros H. rewrite ai_process_dispatch, H.
  change (classify "hapus") with Hapus. unfold do_hapus.
  change (strip (replace "hapus" "hapus" "")) with "".
  rewrite (filter_all (name_has "")) by (intros t; apply str_in_nil).
  destruct tasks as [|t [|u l]]; try reflexivity.
  simpl. now rewrite task_eqb_refl.
Qed.

(** X3.  The command word [selesai] alone marks the first task of the
    list, whatever its name. *)
Theorem bare_selesai_marks_first_task q tasks p :
  normalize q = "selesai" ->
  ai_process q tasks p
  = match tasks with
    | [] => (Returns (Text "Tugas '' tidak ditemukan."), [])
    | t :: l =>
        (Returns (Save ("Tugas '" ++ name t ++ "' ditandai selesai.")%string),
         set_done t :: l)
    end.
Proof.
  intros H. rewrite ai_process_dispatch, H.
  change (classify "selesai") with Selesai. unfold do_selesai.
  change (strip (replace "selesai" "selesai" "")) with "".
  destruct tasks as [|t l]; [reflexivity|].
  assert (N : name_has "" t = true) by apply str_in_nil.
  cbn [find mark_first]. now rewrite N.
Qed.

Lemma filter_app_nil (f : task -> bool) l1 l2 :
  filter f l1 = [] -> filter f l2 = [] -> filter f (l1 ++ l2) = [].
Proof. intros H1 H2. now rewrite filter_app, H1, H2. Qed.

(** X4.  After a [hapus] that removed its single match, the same command
    finds nothing and leaves the list alone. *)
Theorem hapus_again_finds_nothing q tasks p :
  classify (normalize q) = Hapus ->
  matches (strip (replace (normalize q) "hapus" "")) tasks = 1%nat ->
  ai_process q (snd (ai_process q tasks p)) p
  = (Returns (Text ("Tugas '" ++ strip (replace (normalize q) "hapus" "")
                    ++ "' tidak ditemukan.")%string),
     snd (ai_process q tasks p)).
Proof.
  intros C M. rewrite !ai_process_dispatch, C.
  destruct (do_hapus_one _ _ M) as (l1 & t & l2 & _ & _ & H1 & H2 & ->).
  simpl snd.
  assert (Z0 : matches (strip (replace (normalize q) "hapus" "")) (l1 ++ l2) = 0%nat).
  { unfold matches. now rewrite filter_app_nil. }
  rewrite do_hapus_other by (rewrite Z0; discriminate).
  now rewrite Z0.
Qed.

Lemma find_first (f : task -> bool) l1 x l2 :
  filter f l1 = [] -> f x = true ->
  find f (l1 ++ x :: l2) = Some x
  /\ mark_first f (l1 ++ x :: l2) = l1 ++ set_done x :: l2.
Proof.
  intros H1 Hx. induction l1 as [|y l1 IH]; simpl.
  - now rewrite Hx.
  - simpl in H1. destruct (f y) eqn:Hy; [discriminate|].
    destruct (IH H1) as [-> ->]. auto.
Qed.

(** X5.  [selesai] is idempotent: the same command on the list it left
    gives the same reply and the same list. *)
Theorem selesai_again_changes_nothing q tasks p :
  classify (normalize q) = Selesai ->
  ai_process q (snd (ai_process q tasks p)) p = ai_process q tasks p.
Proof.
  intros C. rewrite !ai_process_dispatch, C.
  destruct (existsb (name_has (strip (replace (normalize q) "selesai" ""))) tasks) eqn:E.
  - destruct (do_selesai_found _ _ E) as (l1 & t & l2 & _ & Ht & H1 & ->).
    simpl snd. unfold do_selesai.
    assert (Ht' : name_has (strip (replace (normalize q) "selesai" "")) (set_done t) = true)
      by exact Ht.
    destruct (find_first _ l1 (set_done t) l2 H1 Ht') as [-> ->].
    reflexivity.
  - rewrite (do_selesai_none _ _ E). simpl snd. now rewrite (do_selesai_none _ _ E).
Qed.

End FurtherFacts.

Section ExceptionFacts.

Context {lib : DatetimeLib}.

Local Open Scope list_scope.

(** ** The sort, whatever the keys *)





Lemma same_kind_aware a b da db :
  parse_dt a = Some da -> parse_dt b = Some db ->
  same_kind da db = true -> aware a = aware b.
Proof.
  unfold aware, same_kind. intros -> ->.
  destruct (dt_offset da), (dt_offset db); intros H;
    try reflexivity; discriminate.
Qed.




Lemma dt_date_today : dt_date today_start = dt_date now.
Proof.
  unfold today_start, at_midnight, dt_date. simpl.
  apply Z.div_mul. discriminate.
Qed.






End ExceptionFacts.

Section EffectFacts.

Context {lib : DatetimeLib}.

Local Open Scope list_scope.

Lemma pending_app l1 l2 : pending (l1 ++ l2) = (pending l1 + pending l2)%nat.
Proof. unfold pending. now rewrite filter_app, length_app. Qed.

Lemma pending_cons t l :
  pending (t :: l) = ((if done t then 0 else 1) + pending l)%nat.
Proof. unfold pending. simpl. destruct (done t); reflexivity. Qed.

Lemma kept_as_it_was (tasks : list task) :
  Forall (fun t' => exists t, In t tasks /\ (t' = t \/ t' = set_done t)) tasks.
Proof. apply Forall_forall. intros t Ht. exists t. auto. Qed.

(** X7.  The interpreter never adds a task, never reopens one, and never
    changes a field other than [done]: each task of the list it leaves is
    a task of the list it was given, as it was or marked done. *)
Theorem ai_process_never_adds_or_edits q tasks p :
  (List.length (snd (ai_process q tasks p)) <= List.length tasks)%nat
  /\ (pending (snd (ai_process q tasks p)) <= pending tasks)%nat
  /\ Forall (fun t' => exists t, In t tasks /\ (t' = t \/ t' = set_done t))
       (snd (ai_process q tasks p)).
Proof.
  destruct (ai_process_frame q tasks p) as [_ [M|F]].
  2: { rewrite F. repeat split; auto using kept_as_it_was. }
  revert M. rewrite ai_process_dispatch. unfold mutating.
  destruct (classify (normalize q)); try discriminate.
  - intros M. apply Nat.eqb_eq in M.
    destruct (do_hapus_one _ _ M) as (l1 & t & l2 & -> & _ & _ & _ & ->).
    cbn [snd]. repeat split.
    + rewrite !length_app. simpl. lia.
    + rewrite !pending_app, pending_cons. destruct (done t); lia.
    + apply Forall_forall. intros u Hu. exists u. split; [|auto].
      apply in_app_or in Hu. apply in_or_app. simpl. tauto.
  - intros M.
    destruct (do_selesai_found _ _ M) as (l1 & t & l2 & -> & _ & _ & ->).
    cbn [snd]. repeat split.
    + rewrite !length_app. simpl. lia.
    + rewrite !pending_app, !pending_cons. simpl. destruct (done t); lia.
    + apply Forall_forall. intros u Hu.
      apply in_app_or in Hu as [Hu|[<-|Hu]].
      * exists u. split; [apply in_or_app; auto | auto].
      * exists t. split; [apply in_or_app; simpl; auto | auto].
      * exists u. split; [apply in_or_app; simpl; auto | auto].
Qed.

(** X8.  After a [selesai] that found a task, a count query reports one
    pending task fewer when the task found was pending, and the same
    number when it was done already. *)
Theorem selesai_then_jumlah q q2 tasks p t :
  classify (normalize q) = Selesai ->
  classify (normalize q2) = Jumlah ->
  find (name_has (strip (replace (normalize q) "selesai" ""))) tasks = Some t ->
  fst (ai_process q2 (snd (ai_process q tasks p)) p)
  = Returns (Text ("Kamu punya "
                   ++ str_of_nat (pending tasks - (if done t then 0 else 1))
                   ++ " tugas.")%string).
Proof.
  intros C C2 F. rewrite (ai_process_dispatch q2), C2. cbn [fst].
  rewrite ai_process_dispatch, C. unfold do_selesai. rewrite F. cbn [snd].
  destruct (find_mark_first _ _ _ F) as (l1 & l2 & -> & _ & _ & ->).
  unfold do_jumlah. fold (pending (l1 ++ set_done t :: l2)).
  rewrite !pending_app, !pending_cons. simpl done.
  set (k := if done t then 0%nat else 1%nat).
  replace (pending l1 + (k + pending l2) - k)%nat
    with (pending l1 + ((if true then 0 else 1) + pending l2))%nat
    by (cbv iota; lia).
  reflexivity.
Qed.

Lemma filter_nil_iff (f : task -> bool) l :
  filter f l = [] <-> forall t, In t l -> f t = false.
Proof.
  split; [intros H t; now apply filter_nil_false|].
  induction l as [|x l IH]; intros H; [reflexivity|].
  simpl. rewrite (H x) by (simpl; auto). apply IH.
  intros t Ht. apply H. simpl. auto.
Qed.

Lemma upcoming_nil_iff tasks :
  upcoming tasks = []
  <-> forall t, In t tasks -> done t = true \/ fromisoformat (deadline t) = None.
Proof.
  unfold upcoming. rewrite filter_nil_iff. split.
  - intros H t Ht. destruct (done t) eqn:D; [now left|]. right.
    assert (I : In t (filter (fun t => negb (done t)) tasks))
      by (apply filter_In; now rewrite D).
    specialize (H t I). unfold has_dt, parse_dt in H.
    destruct (fromisoformat (deadline t)); [discriminate | reflexivity].
  - intros H t Ht. apply filter_In in Ht as [Ht D].
    destruct (H t Ht) as [E|E].
    + rewrite E in D. discriminate.
    + unfold has_dt, parse_dt. now rewrite E.
Qed.

(** X9.  [terdekat] answers that nothing is coming exactly when every
    task is done or has a deadline that does not parse. *)
Theorem terdekat_nothing_iff q tasks p :
  classify (normalize q) = Terdekat ->
  fst (ai_process q tasks p)
  = Returns (Text "Tidak ada tugas mendatang atau semua deadline tidak valid.")
  <-> forall t, In t tasks -> done t = true \/ fromisoformat (deadline t) = None.
Proof.
  intros C. rewrite <- upcoming_nil_iff.
  rewrite ai_process_dispatch, C. cbn [fst]. rewrite do_terdekat_unfold.
  destruct (upcoming tasks) as [|x l]; [tauto|].
  split; [|discriminate].
  destruct (sort_by_key (x :: l)) as [[|t s]|]; discriminate.
Qed.

(** ** The windows of [minggu] and [besok] *)

Lemma dt_le_naive a b :
  dt_offset a = None ->
  dt_le a b = match dt_offset b with
              | None => Some (dt_wall a <=? dt_wall b)%Z
              | Some _ => None
              end.
Proof.
  unfold dt_le, dt_cmp. intros ->. destruct (dt_offset b); [reflexivity|].
  destruct (Z.compare_spec (dt_wall a) (dt_wall b)); f_equal; symmetry;
    [apply Z.leb_le | apply Z.leb_le | apply Z.leb_gt]; lia.
Qed.

Lemma dt_le_to_naive a b :
  dt_offset b = None ->
  dt_le a b = match dt_offset a with
              | None => Some (dt_wall a <=? dt_wall b)%Z
              | Some _ => None
              end.
Proof.
  unfold dt_le, dt_cmp. intros ->. destruct (dt_offset a); [reflexivity|].
  destruct (Z.compare_spec (dt_wall a) (dt_wall b)); f_equal; symmetry;
    [apply Z.leb_le | apply Z.leb_le | apply Z.leb_gt]; lia.
Qed.

Lemma add_days_some d n d' :
  add_days d n = Some d' ->
  dt_wall d' = (dt_wall d + n * DAY_US)%Z /\ dt_offset d' = dt_offset d.
Proof.
  unfold add_days. destruct (_ && _); [|discriminate].
  intros H. injection H as <-. auto.
Qed.

Lemma in_week_spec stop t :
  dt_offset now = None -> add_days today_start 7 = Some stop ->
  in_week today_start stop t = due_this_week t.
Proof.
  intros N A. apply add_days_some in A as [W O].
  unfold in_week, due_this_week.
  destruct (fromisoformat (deadline t)) as [d|]; [|reflexivity].
  rewrite (dt_le_naive today_start d) by exact N.
  destruct (dt_offset d) eqn:Od; [reflexivity|].
  rewrite (dt_le_to_naive d stop) by (rewrite O; exact N). rewrite Od.
  rewrite W. unfold today_start, at_midnight. cbn [dt_wall].
  replace (dt_date now * DAY_US + 7 * DAY_US)%Z with ((dt_date now + 7) * DAY_US)%Z
    by ring.
  destruct (_ <=? dt_wall d)%Z; [|reflexivity].
  destruct (dt_wall d <=? _)%Z; reflexivity.
Qed.

Lemma is_on_spec tom t :
  add_days today_start 1 = Some tom -> is_on tom t = due_tomorrow t.
Proof.
  intros A. apply add_days_some in A as [W _].
  unfold is_on, due_tomorrow.
  assert (D : dt_date tom = (dt_date now + 1)%Z).
  { unfold dt_date at 1. rewrite W. unfold today_start, at_midnight. cbn [dt_wall].
    fold (dt_date now).
    replace (dt_date now * DAY_US + 1 * DAY_US)%Z
      with ((dt_date now + 1) * DAY_US)%Z by ring.
    apply Z.div_mul. discriminate. }
  now rewrite D.
Qed.

(** X10.  With a naive clock, [minggu] lists, in the order of the list,
    exactly the pending tasks whose deadline parses to a naive [datetime]
    from the midnight that opens today to the midnight seven days later,
    both ends included; a deadline with an offset is passed over. *)
Theorem minggu_lists_the_week q tasks p :
  classify (normalize q) = Minggu ->
  dt_offset now = None -> clock_in_range = true ->
  fst (ai_process q tasks p)
  = Returns (Text
      (match filter due_this_week tasks with
       | [] => "Tidak ada tugas minggu ini."
       | lst => "Tugas minggu ini:" ++ nl ++ join nl (map line_basic lst)
       end)%string).
Proof.
  intros C N R. rewrite ai_process_dispatch, C. cbn [fst]. unfold do_minggu.
  destruct (add_days_today 7 R) as [stop A]; [lia|]. rewrite A.
  rewrite (filter_ext _ _ (fun t => in_week_spec stop t N A) tasks).
  destruct (filter due_this_week tasks); reflexivity.
Qed.

(** X11.  [besok] lists, by name and in the order of the list, exactly
    the pending tasks whose deadline falls on the date after the clock's,
    with or without an offset. *)
Theorem besok_lists_tomorrow q tasks p :
  classify (normalize q) = Besok -> clock_in_range = true ->
  fst (ai_process q tasks p)
  = Returns (Text
      (match filter due_tomorrow tasks with
       | [] => "Tidak ada tugas untuk besok."
       | lst => "Tugas besok:" ++ nl
                ++ join nl (map (fun x => "- " ++ name x) lst)
       end)%string).
Proof.
  intros C R. rewrite ai_process_dispatch, C. cbn [fst]. unfold do_besok.
  destruct (add_days_today 1 R) as [tom A]; [lia|]. rewrite A.
  rewrite (filter_ext _ _ (fun t => is_on_spec tom t A) tasks).
  destruct (filter due_tomorrow tasks); reflexivity.
Qed.

(** X12.  When no keyword rule applies, the reply is the help text
    exactly when no task has a lower-cased name that occurs in the
    text. *)
Theorem lookup_falls_back_iff q tasks p :
  classify (normalize q) = Lookup ->
  fst (ai_process q tasks p)
  = Returns (Text "Saya tidak paham. Coba: 'deadline terdekat', 'tugas minggu ini', 'tugas besok', 'berapa tugas saya', atau 'hapus <nama tugas>'.")
  <-> forall t, In t tasks -> str_in (lower (name t)) (normalize q) = false.
Proof.
  intros C. rewrite ai_process_dispatch, C. cbn [fst]. unfold do_lookup.
  destruct (find _ tasks) as [t|] eqn:F.
  - split.
    + destruct (plan_is_pro p); discriminate.
    + intros H. apply find_some in F as [I M]. rewrite (H t I) in M. discriminate.
  - split; [intros _|reflexivity].
    intros t I. exact (find_none _ _ F t I).
Qed.

(** ** [format_date_iso] and [today_start] *)

Lemma append_solid a c b : (a ++ String c b)%string <> ""%string.
Proof. destruct a; discriminate. Qed.

Lemma strftime_not_empty d : strftime_d_B_Y d <> ""%string.
Proof.
  unfold strftime_d_B_Y. destruct (ord2ymd (dt_date d)) as [[y m] dd].
  apply append_solid.
Qed.

(** X13.  [format_date_iso] gives back a text that does not parse as it
    is, and gives the empty string for the empty string only. *)
Theorem format_date_iso_echo iso :
  (fromisoformat iso = None -> format_date_iso iso = iso)
  /\ (format_date_iso iso = ""%string <-> iso = ""%string).
Proof.
  unfold format_date_iso. split.
  - intros ->. destruct (String.eqb_spec iso ""); [now subst | reflexivity].
  - destruct (String.eqb_spec iso "") as [->|N]; [tauto|].
    destruct (fromisoformat iso) as [d|].
    + split; [intros H; now apply strftime_not_empty in H | contradiction].
    + tauto.
Qed.

(** X14.  [today_start] is the midnight that opens the day of the clock:
    it has the date and the offset of the clock, no time of day, and the
    clock is less than a day later. *)
Theorem today_start_opens_the_day :
  dt_date today_start = dt_date now
  /\ dt_offset today_start = dt_offset now
  /\ (dt_wall today_start mod DAY_US = 0)%Z
  /\ (dt_wall today_start <= dt_wall now < dt_wall today_start + DAY_US)%Z.
Proof.
  split; [apply dt_date_today|]. split; [reflexivity|].
  unfold today_start, at_midnight, dt_date. cbn [dt_wall]. split.
  - apply Z.mod_mul. discriminate.
  - pose proof (Z.div_mod (dt_wall now) DAY_US ltac:(discriminate)) as E.
    pose proof (Z.mod_pos_bound (dt_wall now) DAY_US eq_refl) as B.
    lia.
Qed.

End EffectFacts.

(* ================================================================== *)
(** * Properties of the routes *)
(* ================================================================== *)

Section RouteFacts.

Context {lib : DatetimeLib} {rlib : RouteLib}.

Local Open Scope list_scope.

Lemma apply_patch_id data t : id (apply_patch data t) = id t.
Proof.
  unfold apply_patch.
  destruct (pt_done data), (pt_name data), (pt_deadline data) as [dl|],
    (pt_priority data), (pt_note data);
    try destruct (fromisoformat dl); reflexivity.
Qed.

Lemma update_first_ids i f l :
  (forall t, id (f t) = id t) ->
  map id (update_first (has_id i) f l) = map id l.
Proof.
  intros H. induction l as [|x l IH]; simpl; [reflexivity|].
  destruct (has_id i x); simpl; [now rewrite H | now rewrite IH].
Qed.

Lemma update_first_split (g : task -> bool) f l1 x l2 :
  filter g l1 = [] -> g x = true ->
  find g (l1 ++ x :: l2) = Some x
  /\ update_first g f (l1 ++ x :: l2) = l1 ++ f x :: l2.
Proof.
  intros H1 Hx. induction l1 as [|y l1 IH]; simpl.
  - now rewrite Hx.
  - simpl in H1. destruct (g y) eqn:Hy; [discriminate|].
    destruct (IH H1) as [-> ->]. auto.
Qed.

Lemma has_id_spec i t : has_id i t = true <-> id t = i.
Proof. unfold has_id. apply String.eqb_eq. Qed.

Lemma find_has_id_none i store :
  find (has_id i) store = None <-> forall t, In t store -> id t <> i.
Proof.
  split.
  - intros F t I E. apply has_id_spec in E.
    pose proof (find_none _ _ F t I). congruence.
  - intros H. destruct (find (has_id i) store) as [t|] eqn:F; [|reflexivity].
    apply find_some in F as [I E]. apply has_id_spec in E. now elim (H t I).
Qed.

(** X15.  [PATCH] and [DELETE] on [/api/tasks/<id>] answer 404 exactly
    when no task has that id, and then leave the store as it was. *)
Theorem api_task_modify_unknown_id m i data store :
  (fst (fst (api_task_modify m i data store)) = 404%nat
   <-> forall t, In t store -> id t <> i)
  /\ (fst (fst (api_task_modify m i data store)) = 404%nat
      -> api_task_modify m i data store
         = ((404%nat, JFail "task not found"), store)).
Proof.
  rewrite <- find_has_id_none. unfold api_task_modify.
  destruct (find (has_id i) store) as [t|]; [|simpl; tauto].
  destruct m; simpl; split; try split; discriminate.
Qed.

(** X16.  [DELETE /api/tasks/<id>] on an id that is there takes out every
    task with that id, keeps the others in their order, and a second
    [DELETE] of the id answers 404. *)
Theorem api_task_delete_removes_every_copy i data store :
  existsb (has_id i) store = true ->
  fst (api_task_modify M_DELETE i data store) = (200%nat, JOk)
  /\ snd (api_task_modify M_DELETE i data store)
     = filter (fun t => negb (has_id i t)) store
  /\ (forall t, In t (snd (api_task_modify M_DELETE i data store))
                <-> In t store /\ id t <> i)
  /\ api_task_modify M_DELETE i data (snd (api_task_modify M_DELETE i data store))
     = ((404%nat, JFail "task not found"),
        snd (api_task_modify M_DELETE i data store)).
Proof.
  intros E. rewrite find_existsb in E.
  assert (R : api_task_modify M_DELETE i data store
              = ((200%nat, JOk), filter (fun t => negb (has_id i t)) store)).
  { unfold api_task_modify.
    destruct (find (has_id i) store); [reflexivity | discriminate]. }
  rewrite R. cbn [fst snd].
  assert (K : forall t, In t (filter (fun t => negb (has_id i t)) store)
                        <-> In t store /\ id t <> i).
  { intros u. rewrite filter_In, negb_true_iff. unfold has_id.
    now rewrite String.eqb_neq. }
  split; [reflexivity|]. split; [reflexivity|]. split; [exact K|].
  unfold api_task_modify.
  assert (N : find (has_id i) (filter (fun t => negb (has_id i t)) store) = None).
  { apply find_has_id_none. intros u Hu. now apply K in Hu. }
  now rewrite N.
Qed.

(** X17.  [PATCH /api/tasks/<id>] never changes an id, the number of
    tasks or their order; it rewrites the first task with the id and
    no other. *)
Theorem api_task_patch_keeps_ids i data store :
  map id (snd (api_task_modify M_PATCH i data store)) = map id store
  /\ (forall l1 t l2,
        store = l1 ++ t :: l2 -> id t = i ->
        (forall u, In u l1 -> id u <> i) ->
        api_task_modify M_PATCH i data store
        = ((200%nat, JTask (apply_patch data t)),
           l1 ++ apply_patch data t :: l2)).
Proof.
  split.
  - unfold api_task_modify. destruct (find (has_id i) store); [|reflexivity].
    cbn [snd]. apply update_first_ids, apply_patch_id.
  - intros l1 t l2 -> Ht H1. unfold api_task_modify.
    assert (F1 : filter (has_id i) l1 = []).
    { apply filter_nil_iff. intros u Hu. destruct (has_id i u) eqn:E; [|reflexivity].
      apply has_id_spec in E. now elim (H1 u Hu). }
    assert (Hx : has_id i t = true) by now apply has_id_spec.
    destruct (update_first_split _ (apply_patch data) l1 t l2 F1 Hx) as [-> ->].
    reflexivity.
Qed.

(** X18.  A [PATCH] whose deadline does not parse is answered 200 all
    the same, and the task keeps the deadline it had; one that parses is
    stored as [isoformat()] writes it. *)
Theorem api_task_patch_deadline i data store t s :
  find (has_id i) store = Some t ->
  pt_deadline data = Some s ->
  exists t',
    fst (api_task_modify M_PATCH i data store) = (200%nat, JTask t')
    /\ deadline t' = match fromisoformat s with
                     | Some d => isoformat d
                     | None => deadline t
                     end.
Proof.
  intros F D. unfold api_task_modify. rewrite F. cbn [fst].
  exists (apply_patch data t). split; [reflexivity|].
  unfold apply_patch. rewrite D.
  destruct (pt_done data), (pt_name data), (fromisoformat s),
    (pt_priority data), (pt_note data); reflexivity.
Qed.

Lemma no_other_id l1 t l2 :
  NoDup (map id (l1 ++ t :: l2)) ->
  forall u, In u (l1 ++ l2) -> id u <> id t.
Proof.
  rewrite map_app. simpl. intros N u Hu E.
  apply NoDup_remove_2 in N. apply N. rewrite <- map_app, <- E.
  now apply in_map.
Qed.

Lemma filter_keeps_all (f : task -> bool) l :
  (forall t, In t l -> f t = true) -> filter f l = l.
Proof.
  induction l as [|x l IH]; intros H; simpl; [reflexivity|].
  rewrite (H x) by (simpl; auto). f_equal. apply IH. intros; apply H; simpl; auto.
Qed.

(** X19.  When the ids are distinct, the [hapus] of the interpreter that
    finds one match leaves the store [DELETE /api/tasks/<id>] leaves for
    the id of that match. *)
Theorem hapus_is_delete_by_id q tasks p data :
  NoDup (map id tasks) ->
  classify (normalize q) = Hapus ->
  matches (strip (replace (normalize q) "hapus" "")) tasks = 1%nat ->
  exists t,
    find (name_has (strip (replace (normalize q) "hapus" ""))) tasks = Some t
    /\ snd (ai_process q tasks p)
       = snd (api_task_modify M_DELETE (id t) data tasks).
Proof.
  intros N C M. rewrite ai_process_dispatch, C.
  destruct (do_hapus_one _ _ M) as (l1 & t & l2 & -> & Ht & H1 & H2 & ->).
  exists t. split.
  - destruct (find_first _ l1 t l2 H1 Ht) as [F _]. exact F.
  - cbn [snd]. unfold api_task_modify.
    assert (O := no_other_id _ _ _ N).
    assert (F1 : filter (has_id (id t)) l1 = []).
    { apply filter_nil_iff. intros u Hu. destruct (has_id (id t) u) eqn:E; [|reflexivity].
      apply has_id_spec in E. elim (O u); [apply in_or_app; auto | exact E]. }
    destruct (update_first_split _ (fun x => x) l1 t l2 F1 (proj2 (has_id_spec _ _) eq_refl))
      as [-> _].
    cbn [snd]. rewrite filter_app. simpl.
    replace (has_id (id t) t) with true by (symmetry; now apply has_id_spec).
    simpl. rewrite !filter_keeps_all; [reflexivity | |];
      intros u Hu; apply negb_true_iff; destruct (has_id (id t) u) eqn:E; try reflexivity;
      apply has_id_spec in E; elim (O u); try exact E; apply in_or_app; auto.
Qed.

(** X20.  When the ids are distinct, the [selesai] of the interpreter
    that finds a task leaves the store that [PATCH /api/tasks/<id>] with
    the body [{"done": true}] leaves for the id of that task. *)
Theorem selesai_is_patch_done q tasks p t :
  NoDup (map id tasks) ->
  classify (normalize q) = Selesai ->
  find (name_has (strip (replace (normalize q) "selesai" ""))) tasks = Some t ->
  snd (ai_process q tasks p)
  = snd (api_task_modify M_PATCH (id t)
           (mkpatch (Some true) None None None None) tasks).
Proof.
  intros N C F. rewrite ai_process_dispatch, C. unfold do_selesai. rewrite F.
  cbn [snd].
  destruct (find_mark_first _ _ _ F) as (l1 & l2 & -> & _ & _ & ->).
  assert (O := no_other_id _ _ _ N).
  assert (F1 : filter (has_id (id t)) l1 = []).
  { apply filter_nil_iff. intros u Hu. destruct (has_id (id t) u) eqn:E; [|reflexivity].
    apply has_id_spec in E. elim (O u); [apply in_or_app; auto | exact E]. }
  unfold api_task_modify.
  destruct (update_first_split _ (apply_patch (mkpatch (Some true) None None None None))
              l1 t l2 F1 (proj2 (has_id_spec _ _) eq_refl)) as [-> ->].
  reflexivity.
Qed.

End RouteFacts.

Section StoreFacts.

Context {lib : DatetimeLib} {rlib : RouteLib}.

Local Open Scope list_scope.

Lemma api_tasks_post_cases payload store :
  let name := strip (or_default (f_name payload) "") in
  let dl := or_default (f_deadline payload) "" in
  ((name = ""%string \/ dl = ""%string \/ normalize_deadline dl = None)
   /\ exists msg, api_tasks_post payload store = ((400%nat, JFail msg), store))
  \/ (name <> ""%string /\ dl <> ""%string
      /\ exists iso, normalize_deadline dl = Some iso
         /\ api_tasks_post payload store
            = ((200%nat,
                JTask (mktask ("t" ++ strftime_id now) name iso
                         (or_default (f_priority payload) "medium")
                         (or_default (f_note payload) "") false)),
               store ++ [mktask ("t" ++ strftime_id now) name iso
                           (or_default (f_priority payload) "medium")
                           (or_default (f_note payload) "") false])).
Proof.
  cbv zeta. unfold api_tasks_post.
  destruct (String.eqb_spec (strip (or_default (f_name payload) "")) "") as [E1|E1].
  { left. simpl. split; [auto | eauto]. }
  destruct (String.eqb_spec (or_default (f_deadline payload) "") "") as [E2|E2].
  { left. simpl. split; [auto | eauto]. }
  simpl. destruct (normalize_deadline _) as [iso|] eqn:E3.
  - right. repeat split; auto. exists iso. auto.
  - left. split; [auto | eauto].
Qed.

(** X21.  [POST /api/tasks] answers 400 exactly when the name is blank,
    the deadline is empty, or the deadline is read neither by
    [fromisoformat] nor as [%Y-%m-%d]; it then leaves the store as it
    was.  It answers 200 otherwise. *)
Theorem api_tasks_post_rejects payload store :
  (fst (fst (api_tasks_post payload store)) = 400%nat
   <-> strip (or_default (f_name payload) "") = ""%string
       \/ or_default (f_deadline payload) "" = ""%string
       \/ (fromisoformat (or_default (f_deadline payload) "") = None
           /\ strptime_ymd (or_default (f_deadline payload) "") = None))
  /\ (fst (fst (api_tasks_post payload store)) = 400%nat
      \/ fst (fst (api_tasks_post payload store)) = 200%nat)
  /\ (fst (fst (api_tasks_post payload store)) = 200%nat
      \/ snd (api_tasks_post payload store) = store).
Proof.
  assert (N : forall dl, normalize_deadline dl = None
                         <-> fromisoformat dl = None /\ strptime_ymd dl = None).
  { intros dl. unfold normalize_deadline.
    destruct (fromisoformat dl), (strptime_ymd dl); split;
      try discriminate; try tauto; intros [? ?]; discriminate. }
  destruct (api_tasks_post_cases payload store)
    as [[H [msg ->]]|(H1 & H2 & iso & H3 & ->)]; cbn [fst snd].
  - rewrite <- N. repeat split; auto.
  - rewrite <- N. repeat split; auto; try discriminate.
    intros [H|[H|H]]; congruence.
Qed.

(** X22.  After a [POST /api/tasks] that was accepted, the store holds
    one more task, at the end, pending and with the trimmed name, and a
    count query reports one pending task more. *)
Theorem api_tasks_post_then_jumlah payload store q p :
  fst (fst (api_tasks_post payload store)) = 200%nat ->
  classify (normalize q) = Jumlah ->
  (exists t, snd (api_tasks_post payload store) = store ++ [t]
             /\ done t = false
             /\ name t = strip (or_default (f_name payload) "")
             /\ name t <> ""%string)
  /\ fst (ai_process q (snd (api_tasks_post payload store)) p)
     = Returns (Text ("Kamu punya " ++ str_of_nat (pending store + 1)
                      ++ " tugas.")%string).
Proof.
  intros S C.
  destruct (api_tasks_post_cases payload store)
    as [[_ [msg E]]|(H1 & H2 & iso & H3 & E)]; rewrite E in *; cbn [fst snd] in *.
  - discriminate.
  - split.
    { eexists. split; [reflexivity|]. split; [reflexivity|].
      split; [reflexivity | exact H1]. }
    rewrite ai_process_dispatch, C. cbn [fst]. unfold do_jumlah.
    fold (pending (store ++ [mktask ("t" ++ strftime_id now)
                               (strip (or_default (f_name payload) "")) iso
                               (or_default (f_priority payload) "medium")
                               (or_default (f_note payload) "") false])).
    rewrite pending_app. reflexivity.
Qed.

Lemma ai_process_origin q tasks p :
  Forall (fun t' => exists t, In t tasks /\ (t' = t \/ t' = set_done t))
    (snd (ai_process q tasks p)).
Proof.
  destruct (ai_process_frame q tasks p) as [_ [M|F]].
  2: { rewrite F. apply kept_as_it_was. }
  revert M. rewrite ai_process_dispatch. unfold mutating.
  destruct (classify (normalize q)); try discriminate.
  - intros M. apply Nat.eqb_eq in M.
    destruct (do_hapus_one _ _ M) as (l1 & t & l2 & -> & _ & _ & _ & ->).
    cbn [snd]. apply Forall_forall. intros u Hu. exists u. split; [|auto].
    apply in_app_or in Hu. apply in_or_app. simpl. tauto.
  - intros M.
    destruct (do_selesai_found _ _ M) as (l1 & t & l2 & -> & _ & _ & ->).
    cbn [snd]. apply Forall_forall. intros u Hu.
    apply in_app_or in Hu as [Hu|[<-|Hu]].
    + exists u. split; [apply in_or_app; auto | auto].
    + exists t. split; [apply in_or_app; simpl; auto | auto].
    + exists u. split; [apply in_or_app; simpl; auto | auto].
Qed.

(** X23.  A store in which every task has a name keeps that property
    through [POST /api/tasks], through [DELETE /api/tasks/<id>] and
    through the interpreter. *)
Theorem named_tasks_stay_named payload q p i data store :
  Forall (fun t => name t <> ""%string) store ->
  Forall (fun t => name t <> ""%string) (snd (api_tasks_post payload store))
  /\ Forall (fun t => name t <> ""%string)
       (snd (api_task_modify M_DELETE i data store))
  /\ Forall (fun t => name t <> ""%string) (snd (ai_process q store p)).
Proof.
  intros H. repeat split.
  - destruct (api_tasks_post_cases payload store)
      as [[_ [msg ->]]|(H1 & H2 & iso & H3 & ->)]; cbn [snd]; [exact H|].
    apply Forall_app. split; [exact H|]. constructor; [exact H1 | constructor].
  - unfold api_task_modify. destruct (find _ store) as [f0|]; cbn [snd]; [|exact H].
    rewrite Forall_forall in *. intros t Ht. apply filter_In in Ht as [Ht _]. auto.
  - pose proof (ai_process_origin q store p) as O.
    rewrite Forall_forall in *. intros t' Ht'.
    destruct (O t' Ht') as (t & It & [->| ->]); [auto | apply (H t It)].
Qed.

(** ** What [api_query] answers *)

Ltac returns_literal :=
  let H := fresh in
  intros H; injection H as <-; simpl; discriminate.

Lemma returns_not_empty q tasks p r :
  fst (ai_process q tasks p) = Returns r -> reply_text r <> ""%string.
Proof.
  rewrite ai_process_dispatch.
  destruct (classify (normalize q)); cbn [fst]; try returns_literal.
  - destruct (Nat.eqb_spec (matches (strip (replace (normalize q) "hapus" "")) tasks) 1)
      as [E|E].
    + destruct (do_hapus_one _ _ E) as (l1 & t & l2 & _ & _ & _ & _ & ->).
      cbn [fst]. returns_literal.
    + rewrite (do_hapus_other _ _ E). cbn [fst].
      destruct (1 <? _)%nat; returns_literal.
  - unfold do_selesai. destruct (find _ tasks); cbn [fst]; returns_literal.
  - rewrite do_terdekat_unfold.
    destruct (upcoming tasks) as [|x l]; [returns_literal|].
    destruct (sort_by_key _) as [[|t s]|]; try discriminate. returns_literal.
  - unfold do_minggu. destruct (add_days today_start 7); [|discriminate].
    destruct (filter _ tasks); returns_literal.
  - unfold do_besok. destruct (add_days today_start 1); [|discriminate].
    destruct (filter _ tasks); returns_literal.
  - unfold do_daftar. destruct tasks; [|destruct (plan_is_pro p)]; returns_literal.
  - unfold do_lookup. destruct (find _ tasks); [destruct (plan_is_pro p)|];
      returns_literal.
Qed.

(** X24.  Whenever the interpreter returns, the reply it returns is not
    the empty string. *)
Theorem ai_process_reply_not_empty q tasks p r :
  fst (ai_process q tasks p) = Returns r -> reply_text r <> ""%string.
Proof. apply returns_not_empty. Qed.


(** ** The plan *)

(** X26.  [api_subscribe] accepts the plans [basic] and [pro] and no
    other; a missing plan counts as [basic].  A refused call leaves
    [profile.json] as it was; an accepted one stores the plan and keeps
    name, e-mail, avatar and creation date. *)
Theorem api_subscribe_checks_plan plan_field file :
  ((or_default plan_field "basic" = "basic"%string
    \/ or_default plan_field "basic" = "pro"%string)
   /\ exists p,
        api_subscribe plan_field file
        = ((200%nat, JProfile p (Some now_iso)), Holds p (Some now_iso))
        /\ plan p = Some (or_default plan_field "basic")
        /\ p_name p = p_name (fst (fst (load_profile file)))
        /\ p_email p = p_email (fst (fst (load_profile file)))
        /\ p_avatar p = p_avatar (fst (fst (load_profile file)))
        /\ p_created p = p_created (fst (fst (load_profile file))))
  \/ (or_default plan_field "basic" <> "basic"%string
      /\ or_default plan_field "basic" <> "pro"%string
      /\ api_subscribe plan_field file = ((400%nat, JFail "invalid plan"), file)).
Proof.
  unfold api_subscribe.
  destruct (String.eqb_spec (or_default plan_field "basic") "basic") as [E1|E1];
    destruct (String.eqb_spec (or_default plan_field "basic") "pro") as [E2|E2];
    simpl; try (right; now auto);
    left; (split; [auto|]);
    destruct (load_profile file) as [[p sub] file']; cbn [fst];
    eexists; repeat split.
Qed.

(** X27.  [PATCH /api/profile] stores whatever plan it is sent, without
    the check of [api_subscribe]; the interpreter gives the detailed
    lines for the stored profile exactly when that plan is [pro]. *)
Theorem api_profile_patch_plan_unchecked n e a x file :
  exists p s,
    api_profile_patch (mkppatch n e a (Some x)) file
    = ((200%nat, JProfile p s), Holds p s)
    /\ plan p = Some x
    /\ (plan_is_pro p = true <-> x = "pro"%string).
Proof.
  unfold api_profile_patch.
  destruct (load_profile file) as [[p sub] file'].
  eexists. eexists. split; [reflexivity|]. split; [reflexivity|].
  unfold plan_is_pro. cbn [plan pp_plan]. apply String.eqb_eq.
Qed.

(** X28.  Once [api_subscribe] has accepted the plan [pro], a list-all
    question to [api_query] is answered with the detailed line of every
    task, whatever [profile.json] held before. *)
Theorem subscribe_pro_then_daftar q store file :
  strip q <> ""%string ->
  classify (normalize (strip q)) = Daftar ->
  store <> [] ->
  api_query (Some q) store (snd (api_subscribe (Some "pro"%string) file))
  = ((200%nat,
      JReply ("Daftar tugas:" ++ nl ++ join nl (map line_pro store))%string),
     store).
Proof.
  intros Q C S. unfold api_subscribe. cbn [or_default].
  change (negb (String.eqb "pro" "basic" || String.eqb "pro" "pro")) with false.
  cbv iota. destruct (load_profile file) as [[p sub] file']. cbn [snd].
  unfold api_query. cbn [or_default load_profile].
  destruct (String.eqb_spec (strip q) "") as [E|_]; [contradiction|].
  rewrite ai_process_dispatch, C. unfold do_daftar.
  destruct store; [contradiction|]. reflexivity.
Qed.

End StoreFacts.

(* ================================================================== *)
(** * Runs of the further properties *)
(* ================================================================== *)

Section FurtherRuns.

Local Open Scope list_scope.

Local Existing Instance canonical_lib.
Local Existing Instance python_routes.

Ltac distinct_ids :=
  repeat (constructor; [simpl; intuition discriminate|]); constructor.

(** [HAPUS] alone, with blanks around it, on a one-task list. *)
Lemma bare_hapus_selects_every_task_witness :
  normalize "  HAPUS " = "hapus"%string
  /\ ai_process "  HAPUS " [new_task "t1" "Math HW" "2025-06-01"] basic_profile
     = (Returns (Save "Tugas 'Math HW' dihapus."), []).
Proof.
  split; [reflexivity|].
  exact (bare_hapus_selects_every_task "  HAPUS "
           [new_task "t1" "Math HW" "2025-06-01"] basic_profile eq_refl).
Defined.

(** [selesai] alone marks the first of two tasks. *)
Lemma bare_selesai_marks_first_task_witness :
  normalize "Selesai" = "selesai"%string
  /\ ai_process "Selesai"
       [new_task "t1" "Math HW" "2025-06-01"; new_task "t2" "Kuis" "2025-06-02"]
       basic_profile
     = (Returns (Save "Tugas 'Math HW' ditandai selesai."),
        [set_done (new_task "t1" "Math HW" "2025-06-01");
         new_task "t2" "Kuis" "2025-06-02"]).
Proof.
  split; [reflexivity|].
  exact (bare_selesai_marks_first_task "Selesai"
           [new_task "t1" "Math HW" "2025-06-01"; new_task "t2" "Kuis" "2025-06-02"]
           basic_profile eq_refl).
Defined.

(** [hapus math] twice. *)
Lemma hapus_again_finds_nothing_witness :
  let tasks := [new_task "t1" "Math HW" "2025-06-01";
                new_task "t2" "Kuis" "2025-06-02"] in
  classify (normalize "hapus math") = Hapus
  /\ matches (strip (replace (normalize "hapus math") "hapus" "")) tasks = 1%nat
  /\ ai_process "hapus math" (snd (ai_process "hapus math" tasks basic_profile))
       basic_profile
     = (Returns (Text "Tugas 'math' tidak ditemukan."),
        [new_task "t2" "Kuis" "2025-06-02"]).
Proof.
  split; [reflexivity|]. split; [reflexivity|].
  exact (hapus_again_finds_nothing "hapus math"
           [new_task "t1" "Math HW" "2025-06-01"; new_task "t2" "Kuis" "2025-06-02"]
           basic_profile eq_refl eq_refl).
Defined.

(** [selesai kuis] twice. *)
Lemma selesai_again_changes_nothing_witness :
  let tasks := [new_task "t1" "Math HW" "2025-06-01";
                new_task "t2" "Kuis" "2025-06-02"] in
  classify (normalize "selesai kuis") = Selesai
  /\ ai_process "selesai kuis" (snd (ai_process "selesai kuis" tasks basic_profile))
       basic_profile
     = ai_process "selesai kuis" tasks basic_profile.
Proof.
  split; [reflexivity|].
  exact (selesai_again_changes_nothing "selesai kuis"
           [new_task "t1" "Math HW" "2025-06-01"; new_task "t2" "Kuis" "2025-06-02"]
           basic_profile eq_refl).
Defined.

(** Two pending tasks, one marked, one left to count. *)
Lemma selesai_then_jumlah_witness :
  let tasks := [new_task "t1" "Math HW" "2025-06-01";
                new_task "t2" "Kuis" "2025-06-02"] in
  classify (normalize "selesai kuis") = Selesai
  /\ classify (normalize "berapa tugas saya") = Jumlah
  /\ fst (ai_process "berapa tugas saya"
            (snd (ai_process "selesai kuis" tasks basic_profile)) basic_profile)
     = Returns (Text "Kamu punya 1 tugas.").
Proof.
  split; [reflexivity|]. split; [reflexivity|].
  exact (selesai_then_jumlah "selesai kuis" "berapa tugas saya"
           [new_task "t1" "Math HW" "2025-06-01"; new_task "t2" "Kuis" "2025-06-02"]
           basic_profile (new_task "t2" "Kuis" "2025-06-02") eq_refl eq_refl eq_refl).
Defined.

(** A done task and a task with an unreadable deadline: nothing comes. *)
Lemma terdekat_nothing_iff_witness :
  let tasks := [mktask "t1" "Math HW" "2025-06-01" "low" "" true;
                new_task "t2" "Kuis" "lusa"] in
  classify (normalize "deadline terdekat") = Terdekat
  /\ (fst (ai_process "deadline terdekat" tasks basic_profile)
      = Returns (Text "Tidak ada tugas mendatang atau semua deadline tidak valid.")
      <-> forall t, In t tasks ->
                    done t = true \/ fromisoformat (deadline t) = None).
Proof.
  split; [reflexivity|].
  exact (terdekat_nothing_iff "deadline terdekat"
           [mktask "t1" "Math HW" "2025-06-01" "low" "" true;
            new_task "t2" "Kuis" "lusa"] basic_profile eq_refl).
Defined.

(** The week of 4 January 2025: the task due at the closing midnight is
    listed, the one due a second later and the one with an offset are
    not. *)
Lemma minggu_lists_the_week_witness :
  let tasks := [new_task "t1" "Laporan" "2025-01-11T00:00:00";
                new_task "t2" "Kuis" "2025-01-11T00:00:01";
                new_task "t3" "Esai" "2025-01-05T09:00:00+07:00";
                new_task "t4" "Ujian" "2025-01-04"] in
  classify (normalize "tugas minggu ini") = Minggu
  /\ dt_offset now = None /\ clock_in_range = true
  /\ filter due_this_week tasks
     = [new_task "t1" "Laporan" "2025-01-11T00:00:00";
        new_task "t4" "Ujian" "2025-01-04"]
  /\ fst (ai_process "tugas minggu ini" tasks basic_profile)
     = Returns (Text ("Tugas minggu ini:" ++ nl ++ "- Laporan (11 January 2025)"
                      ++ nl ++ "- Ujian (04 January 2025)")%string).
Proof.
  split; [reflexivity|]. split; [reflexivity|]. split; [reflexivity|].
  split; [reflexivity|].
  exact (minggu_lists_the_week "tugas minggu ini"
           [new_task "t1" "Laporan" "2025-01-11T00:00:00";
            new_task "t2" "Kuis" "2025-01-11T00:00:01";
            new_task "t3" "Esai" "2025-01-05T09:00:00+07:00";
            new_task "t4" "Ujian" "2025-01-04"] basic_profile
           eq_refl eq_refl eq_refl).
Defined.

(** Tomorrow is 5 January 2025: the deadline with an offset counts. *)
Lemma besok_lists_tomorrow_witness :
  let tasks := [new_task "t1" "Laporan" "2025-01-06T00:00:00";
                new_task "t3" "Esai" "2025-01-05T09:00:00+07:00";
                mktask "t4" "Ujian" "2025-01-05" "low" "" true] in
  classify (normalize "tugas besok") = Besok
  /\ clock_in_range = true
  /\ fst (ai_process "tugas besok" tasks basic_profile)
     = Returns (Text ("Tugas besok:" ++ nl ++ "- Esai")%string).
Proof.
  split; [reflexivity|]. split; [reflexivity|].
  exact (besok_lists_tomorrow "tugas besok"
           [new_task "t1" "Laporan" "2025-01-06T00:00:00";
            new_task "t3" "Esai" "2025-01-05T09:00:00+07:00";
            mktask "t4" "Ujian" "2025-01-05" "low" "" true] basic_profile
           eq_refl eq_refl).
Defined.

(** A text that names no task. *)
Lemma lookup_falls_back_iff_witness :
  let tasks := [new_task "t1" "Laporan" "2025-01-06T00:00:00"] in
  classify (normalize "kapan kuis?") = Lookup
  /\ (fst (ai_process "kapan kuis?" tasks basic_profile)
      = Returns (Text "Saya tidak paham. Coba: 'deadline terdekat', 'tugas minggu ini', 'tugas besok', 'berapa tugas saya', atau 'hapus <nama tugas>'.")
      <-> forall t, In t tasks ->
                    str_in (lower (name t)) (normalize "kapan kuis?") = false).
Proof.
  split; [reflexivity|].
  exact (lookup_falls_back_iff "kapan kuis?"
           [new_task "t1" "Laporan" "2025-01-06T00:00:00"] basic_profile eq_refl).
Defined.

(** Two tasks share the id [t1]: both go. *)
Lemma api_task_delete_removes_every_copy_witness :
  let store := [new_task "t1" "Laporan" "2025-01-06";
                new_task "t2" "Kuis" "2025-01-07";
                new_task "t1" "Esai" "2025-01-08"] in
  existsb (has_id "t1") store = true
  /\ snd (api_task_modify M_DELETE "t1" (mkpatch None None None None None) store)
     = [new_task "t2" "Kuis" "2025-01-07"].
Proof.
  split; [reflexivity|].
  destruct (api_task_delete_removes_every_copy "t1"
              (mkpatch None None None None None)
              [new_task "t1" "Laporan" "2025-01-06";
               new_task "t2" "Kuis" "2025-01-07";
               new_task "t1" "Esai" "2025-01-08"] eq_refl) as (_ & H & _).
  exact H.
Defined.

(** A deadline that does not parse, sent with a new name. *)
Lemma api_task_patch_deadline_witness :
  let store := [new_task "t1" "Laporan" "2025-01-06T00:00:00"] in
  let data := mkpatch None (Some "Laporan akhir"%string) (Some "lusa"%string) None None in
  find (has_id "t1") store = Some (new_task "t1" "Laporan" "2025-01-06T00:00:00")
  /\ pt_deadline data = Some "lusa"%string
  /\ exists t',
       fst (api_task_modify M_PATCH "t1" data store) = (200%nat, JTask t')
       /\ deadline t' = "2025-01-06T00:00:00"%string.
Proof.
  split; [reflexivity|]. split; [reflexivity|].
  exact (api_task_patch_deadline "t1"
           (mkpatch None (Some "Laporan akhir"%string) (Some "lusa"%string) None None)
           [new_task "t1" "Laporan" "2025-01-06T00:00:00"]
           (new_task "t1" "Laporan" "2025-01-06T00:00:00") "lusa" eq_refl eq_refl).
Defined.

(** [hapus math] and [DELETE /api/tasks/t1]. *)
Lemma hapus_is_delete_by_id_witness :
  let tasks := [new_task "t1" "Math HW" "2025-06-01";
                new_task "t2" "Kuis" "2025-06-02"] in
  NoDup (map id tasks)
  /\ classify (normalize "hapus math") = Hapus
  /\ matches (strip (replace (normalize "hapus math") "hapus" "")) tasks = 1%nat
  /\ exists t,
       find (name_has (strip (replace (normalize "hapus math") "hapus" ""))) tasks
       = Some t
       /\ snd (ai_process "hapus math" tasks basic_profile)
          = snd (api_task_modify M_DELETE (id t)
                   (mkpatch None None None None None) tasks).
Proof.
  assert (N : NoDup (map id [new_task "t1" "Math HW" "2025-06-01";
                             new_task "t2" "Kuis" "2025-06-02"]))
    by distinct_ids.
  split; [exact N|]. split; [reflexivity|]. split; [reflexivity|].
  exact (hapus_is_delete_by_id "hapus math"
           [new_task "t1" "Math HW" "2025-06-01"; new_task "t2" "Kuis" "2025-06-02"]
           basic_profile (mkpatch None None None None None) N eq_refl eq_refl).
Defined.

(** [selesai kuis] and [PATCH /api/tasks/t2] with [{"done": true}]. *)
Lemma selesai_is_patch_done_witness :
  let tasks := [new_task "t1" "Math HW" "2025-06-01";
                new_task "t2" "Kuis" "2025-06-02"] in
  NoDup (map id tasks)
  /\ classify (normalize "selesai kuis") = Selesai
  /\ find (name_has (strip (replace (normalize "selesai kuis") "selesai" ""))) tasks
     = Some (new_task "t2" "Kuis" "2025-06-02")
  /\ snd (ai_process "selesai kuis" tasks basic_profile)
     = snd (api_task_modify M_PATCH "t2"
              (mkpatch (Some true) None None None None) tasks).
Proof.
  assert (N : NoDup (map id [new_task "t1" "Math HW" "2025-06-01";
                             new_task "t2" "Kuis" "2025-06-02"]))
    by distinct_ids.
  split; [exact N|]. split; [reflexivity|]. split; [reflexivity|].
  exact (selesai_is_patch_done "selesai kuis"
           [new_task "t1" "Math HW" "2025-06-01"; new_task "t2" "Kuis" "2025-06-02"]
           basic_profile (new_task "t2" "Kuis" "2025-06-02") N eq_refl eq_refl).
Defined.

(** A task posted with a date that only [strptime] reads, then counted. *)
Lemma api_tasks_post_then_jumlah_witness :
  let payload := mkform (Some "  Math HW "%string) (Some "2025-6-1"%string) None None in
  let store := [new_task "t1" "Kuis" "2025-06-02"] in
  fst (fst (api_tasks_post payload store)) = 200%nat
  /\ classify (normalize "jumlah tugas saya") = Jumlah
  /\ snd (api_tasks_post payload store)
     = [new_task "t1" "Kuis" "2025-06-02";
        new_task "t20250104100000000000" "Math HW" "2025-06-01T00:00:00"]
  /\ fst (ai_process "jumlah tugas saya" (snd (api_tasks_post payload store))
            basic_profile)
     = Returns (Text "Kamu punya 2 tugas.").
Proof.
  assert (S : fst (fst (api_tasks_post
                          (mkform (Some "  Math HW "%string)
                             (Some "2025-6-1"%string) None None)
                          [new_task "t1" "Kuis" "2025-06-02"])) = 200%nat)
    by reflexivity.
  split; [exact S|]. split; [reflexivity|]. split; [reflexivity|].
  destruct (api_tasks_post_then_jumlah
              (mkform (Some "  Math HW "%string) (Some "2025-6-1"%string) None None)
              [new_task "t1" "Kuis" "2025-06-02"] "jumlah tugas saya" basic_profile
              S eq_refl) as [_ H].
  exact H.
Defined.

(** A named store through a post, a delete and a command. *)
Lemma named_tasks_stay_named_witness :
  let store := [new_task "t1" "Kuis" "2025-06-02"] in
  Forall (fun t => name t <> ""%string) store
  /\ Forall (fun t => name t <> ""%string)
       (snd (ai_process "selesai kuis" store basic_profile)).
Proof.
  assert (H : Forall (fun t => name t <> ""%string)
                [new_task "t1" "Kuis" "2025-06-02"])
    by (repeat constructor; discriminate).
  split; [exact H|].
  destruct (named_tasks_stay_named
              (mkform (Some "Esai"%string) (Some "2025-06-03"%string) None None)
              "selesai kuis" basic_profile "t1" (mkpatch None None None None None)
              [new_task "t1" "Kuis" "2025-06-02"] H) as (_ & _ & K).
  exact K.
Defined.

(** The reply to a count query. *)
Lemma ai_process_reply_not_empty_witness :
  fst (ai_process "berapa tugas saya" [] basic_profile)
  = Returns (Text "Kamu punya 0 tugas.")
  /\ reply_text (Text "Kamu punya 0 tugas.") <> ""%string.
Proof.
  split; [reflexivity|].
  exact (ai_process_reply_not_empty "berapa tugas saya" [] basic_profile
           (Text "Kamu punya 0 tugas.") eq_refl).
Defined.

(** From no profile at all to the detailed list. *)
Lemma subscribe_pro_then_daftar_witness :
  let store := [mktask "t1" "Laporan" "2025-01-10T00:00:00" "high" "bab 3" false] in
  strip " semua tugas " <> ""%string
  /\ classify (normalize (strip " semua tugas ")) = Daftar
  /\ store <> []
  /\ api_query (Some " semua tugas "%string) store
       (snd (api_subscribe (Some "pro"%string) NoFile))
     = ((200%nat,
         JReply ("Daftar tugas:" ++ nl
                 ++ "- Laporan (10 January 2025) • HIGH • bab 3")%string),
        store).
Proof.
  assert (Q : strip " semua tugas " <> ""%string) by discriminate.
  assert (S : [mktask "t1" "Laporan" "2025-01-10T00:00:00" "high" "bab 3" false] <> [])
    by discriminate.
  split; [exact Q|]. split; [reflexivity|]. split; [exact S|].
  exact (subscribe_pro_then_daftar " semua tugas "
           [mktask "t1" "Laporan" "2025-01-10T00:00:00" "high" "bab 3" false]
           NoFile Q eq_refl S).
Defined.

End FurtherRuns.
